(** * Activity logger: the session / time-accounting engine

    A shallow embedding of the accounting core of [activity_logger_v10.py]
    (class [StopwatchApp]): the activity registry, the SQLite tables, the
    start / switch / stop transitions, the autosave tick and the midnight
    rollover.  The Tk widgets, the overlay and the hotkey thread only call
    into this core and are not modelled.

    Conventions.
    - A [datetime] truncated to whole seconds is an integer: the proleptic
      Gregorian day ordinal (Python's [date.toordinal]) times 86400 plus the
      second of the day.  Every timestamp the accounting code handles is
      truncated ([replace(microsecond=0)], [timetuple()], [strftime]), so the
      REAL columns only ever hold whole numbers and are integers here.
    - [time.mktime(dt.timetuple())] is taken on the same scale (a fixed UTC
      offset), so that differences of epoch seconds and of datetimes agree.
    - Each [datetime.now()] in the source is a parameter of the function
      that reads the clock.
    - Storage failures are not modelled: every statement succeeds.  The
      constraints that could reject one (NOT NULL, the foreign keys to
      [activities], whose rows are never deleted) are met wherever the
      code issues it. *)

From stdpp Require Import gmap strings list fin_maps pretty.
From Stdlib Require Import ZArith Lia Ascii.
Local Open Scope Z_scope.

(** ** Calendar arithmetic (Python's [datetime]) *)

Module Clock.

Abbreviation datetime := Z (only parsing).
Abbreviation date := Z (only parsing).

Definition SECONDS_PER_DAY : Z := 86400.

(** [dt.date()] *)
Definition date_of (dt : datetime) : date := dt / SECONDS_PER_DAY.

(** [datetime.combine(d, dtime.min)] *)
Definition combine_min (d : date) : datetime := d * SECONDS_PER_DAY.

(** [(a - b).total_seconds()] *)
Definition total_seconds (a b : datetime) : Z := a - b.

(** [time.mktime(dt.timetuple())] *)
Definition mktime (dt : datetime) : Z := dt.

(** The ordinal of a calendar date, as [datetime._ymd2ord] computes it. *)
Definition is_leap (y : Z) : bool :=
  (y mod 4 =? 0) && (negb (y mod 100 =? 0) || (y mod 400 =? 0)).

Definition days_before_year (y : Z) : Z :=
  let y' := y - 1 in y' * 365 + y' / 4 - y' / 100 + y' / 400.

Definition DAYS_BEFORE_MONTH : list Z :=
  [0; 31; 59; 90; 120; 151; 181; 212; 243; 273; 304; 334].

Definition days_before_month (y m : Z) : Z :=
  nth (Z.to_nat (m - 1)) DAYS_BEFORE_MONTH 0
  + (if (2 <? m) && is_leap y then 1 else 0).

Definition ymd2ord (y m d : Z) : date :=
  days_before_year y + days_before_month y m + d.

(** [datetime(y, m, d, hh, mm, ss)] *)
Definition mk_datetime (y m d hh mm ss : Z) : datetime :=
  ymd2ord y m d * SECONDS_PER_DAY + hh * 3600 + mm * 60 + ss.

End Clock.
Import Clock.

(** ** Storage: the three SQLite tables *)

(** A row of [sessions]; the primary key is the key of the map. *)
Record Session := mkSession {
  activity_id : Z;
  start_ts : Z;
  end_ts : Z;
  duration_sec : Z
}.

(** [activities] keeps its rows in insertion order (id, name);
    [sessions] is keyed by its INTEGER PRIMARY KEY;
    [daily_totals] is keyed by its PRIMARY KEY (date, activity_id). *)
Record DB := mkDB {
  activities : list (Z * string);
  sessions : gmap Z Session;
  daily_totals : gmap (Z * Z) Z
}.

(** *** Collation NOCASE: SQLite folds the 26 ASCII upper-case letters. *)

Definition fold_ascii (c : ascii) : ascii :=
  let n := N_of_ascii c in
  if ((65 <=? n) && (n <=? 90))%N then ascii_of_N (n + 32) else c.

Fixpoint nocase_fold (s : string) : string :=
  match s with
  | EmptyString => EmptyString
  | String c r => String (fold_ascii c) (nocase_fold r)
  end.

Definition nocase_eqb (a b : string) : bool :=
  String.eqb (nocase_fold a) (nocase_fold b).

Definition nocase_leb (a b : string) : bool :=
  String.leb (nocase_fold a) (nocase_fold b).

(** *** Row ids: an INTEGER PRIMARY KEY left NULL gets max(rowid) + 1. *)

Definition max_id (ids : list Z) : Z := foldr Z.max 0 ids.

Definition next_activity_id (acts : list (Z * string)) : Z :=
  max_id (fst <$> acts) + 1.

Definition max_session_id (m : gmap Z Session) : Z :=
  map_fold (fun k _ acc => Z.max k acc) 0 m.

(** *** Statements on [activities] *)

(** [INSERT OR IGNORE INTO activities(name) VALUES(?)]: the UNIQUE
    COLLATE NOCASE constraint makes the insert a no-op on a name that is
    already there in any casing. *)
Definition insert_or_ignore_activity (name : string)
    (acts : list (Z * string)) : list (Z * string) :=
  if existsb (fun r => nocase_eqb (snd r) name) acts then acts
  else acts ++ [(next_activity_id acts, name)].

(** [SELECT id FROM activities WHERE name = ?] followed by [fetchone()];
    the comparison uses the column's collation. *)
Definition select_activity_id (name : string)
    (acts : list (Z * string)) : option Z :=
  fst <$> find (fun r => nocase_eqb (snd r) name) acts.

(** [SELECT name FROM activities ORDER BY name] (insertion sort under the
    column's collation). *)
Fixpoint insert_sorted (x : string) (l : list string) : list string :=
  match l with
  | [] => [x]
  | y :: r => if nocase_leb x y then x :: l else y :: insert_sorted x r
  end.

Definition select_names_ordered (acts : list (Z * string)) : list string :=
  foldr insert_sorted [] (snd <$> acts).

(** *** Statements on [sessions] *)

(** [INSERT INTO sessions(...) VALUES (?,?,?,?)]; returns [lastrowid]. *)
Definition insert_session (row : Session) (m : gmap Z Session)
    : gmap Z Session * Z :=
  let k := max_session_id m + 1 in (<[k := row]> m, k).

(** [UPDATE sessions SET end_ts = ?, duration_sec = ? WHERE id = ?] *)
Definition update_session (e d : Z) (k : Z) (m : gmap Z Session)
    : gmap Z Session :=
  alter (fun r => mkSession (activity_id r) (start_ts r) e d) k m.

(** *** Statement on [daily_totals] *)

(** [INSERT ... ON CONFLICT(date, activity_id) DO UPDATE SET
    seconds = seconds + excluded.seconds] *)
Definition upsert_daily_total (d a secs : Z) (m : gmap (Z * Z) Z)
    : gmap (Z * Z) Z :=
  <[(d, a) := default 0 (m !! (d, a)) + secs]> m.

(** Seconds on record for a (date, activity) pair; no row reads as 0. *)
Definition daily_total (m : gmap (Z * Z) Z) (d a : Z) : Z :=
  default 0 (m !! (d, a)).

(** Sum of the [seconds] column. *)
Definition total_credit (m : gmap (Z * Z) Z) : Z :=
  map_fold (fun _ v acc => v + acc) 0 m.

(** ** The application object *)

Record App := mkApp {
  db : DB;
  running : bool;
  start_time : option Z;
  start_timestamp : option Z;
  current_activity_id : option Z;
  current_activity_name : option string;
  current_session_id : option Z;
  _last_autosave_dt : Z;
  activity_var : string
}.

Definition set_db (f : DB -> DB) (s : App) : App :=
  mkApp (f (db s)) (running s) (start_time s) (start_timestamp s)
    (current_activity_id s) (current_activity_name s)
    (current_session_id s) (_last_autosave_dt s) (activity_var s).

Definition set_sessions (f : gmap Z Session -> gmap Z Session)
    (d : DB) : DB :=
  mkDB (activities d) (f (sessions d)) (daily_totals d).

Definition set_daily_totals (f : gmap (Z * Z) Z -> gmap (Z * Z) Z)
    (d : DB) : DB :=
  mkDB (activities d) (sessions d) (f (daily_totals d)).

Definition set_activities (f : list (Z * string) -> list (Z * string))
    (d : DB) : DB :=
  mkDB (f (activities d)) (sessions d) (daily_totals d).

Definition set_current_session_id (k : option Z) (s : App) : App :=
  mkApp (db s) (running s) (start_time s) (start_timestamp s)
    (current_activity_id s) (current_activity_name s)
    k (_last_autosave_dt s) (activity_var s).

Definition set_last_autosave (t : Z) (s : App) : App :=
  mkApp (db s) (running s) (start_time s) (start_timestamp s)
    (current_activity_id s) (current_activity_name s)
    (current_session_id s) t (activity_var s).

(** [self.running], [self.start_time] and [self.start_timestamp] are
    always assigned together. *)
Definition set_run (r : bool) (st sts : option Z) (s : App) : App :=
  mkApp (db s) r st sts
    (current_activity_id s) (current_activity_name s)
    (current_session_id s) (_last_autosave_dt s) (activity_var s).

Definition set_activity (aid : option Z) (name : string) (s : App) : App :=
  mkApp (db s) (running s) (start_time s) (start_timestamp s)
    aid (Some name)
    (current_session_id s) (_last_autosave_dt s) (activity_var s).

Definition set_activity_var (v : string) (s : App) : App :=
  mkApp (db s) (running s) (start_time s) (start_timestamp s)
    (current_activity_id s) (current_activity_name s)
    (current_session_id s) (_last_autosave_dt s) v.

Definition is_some {A} (o : option A) : bool :=
  match o with Some _ => true | None => false end.

(** Python truthiness of a string. *)
Definition truthy (x : string) : bool := negb (String.eqb x "").

(** ** Activity registry *)

Definition DEFAULT_ACTIVITIES : list string :=
  ["Work"; "Study"; "Break"; "Waste"; "Projects"].

Definition _seed_default_activities (d : DB) : DB :=
  set_activities
    (fun acts =>
       insert_or_ignore_activity "Custom"
         (foldl (fun acc name => insert_or_ignore_activity name acc)
            acts DEFAULT_ACTIVITIES)) d.

Definition _load_activities (d : DB) : list string :=
  List.filter (fun n => negb (String.eqb n "Custom"))
    (select_names_ordered (activities d)) ++ ["Custom"].

Definition _first_non_custom_activity (d : DB) : string :=
  default "Work"
    (find (fun n => negb (String.eqb n "Custom")) (_load_activities d)).

(** The SELECT always finds the row the INSERT OR IGNORE left in place
    (lemma [get_or_create_is_Some]), so [row[0]] never fails. *)
Definition _get_or_create_activity (name : string) (d : DB)
    : DB * option Z :=
  let d' := set_activities (insert_or_ignore_activity name) d in
  (d', select_activity_id name (activities d')).

(** ** Activity control *)

(** The NOT NULL column rejects a missing activity id; every caller has
    checked or just set [current_activity_id]. *)
Definition _create_new_session_row (start_dt : datetime) (s : App) : App :=
  match current_activity_id s with
  | Some a =>
      let '(m, k) :=
        insert_session (mkSession a start_dt start_dt 0) (sessions (db s)) in
      set_current_session_id (Some k) (set_db (set_sessions (fun _ => m)) s)
  | None => s
  end.

Definition _update_current_session_row (end_dt : datetime) (s : App) : App :=
  if running s then
    match current_session_id s, start_time s with
    | Some k, Some st =>
        let duration := Z.max 0 (mktime end_dt - st) in
        set_db (set_sessions (update_session end_dt duration k)) s
    | _, _ => s
    end
  else s.

Definition _finalize_current_session_row (end_dt : datetime) (s : App)
    : App :=
  set_current_session_id None (_update_current_session_row end_dt s).

Definition _save_previous_activity_if_running (end_dt : datetime) (s : App)
    : App :=
  if running s && is_some (current_activity_id s) && is_some (start_time s)
  then set_run false None None (_finalize_current_session_row end_dt s)
  else s.

(** [end_dt] is the clock read in [_save_previous_activity_if_running],
    [now] the one in [_start_activity] itself. *)
Definition _start_activity (name : string) (end_dt now : datetime) (s : App)
    : App :=
  let s1 := _save_previous_activity_if_running end_dt s in
  let '(d', aid) := _get_or_create_activity name (db s1) in
  let s2 := set_activity aid name (set_db (fun _ => d') s1) in
  let s3 := set_run true (Some (mktime now)) (Some now) s2 in
  _create_new_session_row now (set_last_autosave now s3).

(** ** Midnight rollover and autosave *)

Definition _add_to_daily_total (d : date) (a : Z) (seconds : Z) (s : App)
    : App :=
  set_db (set_daily_totals (upsert_daily_total d a seconds)) s.

Definition _rollover_midnight_if_needed (reference_dt now_dt : datetime)
    (s : App) : App * datetime :=
  match running s, current_activity_id s with
  | true, Some a =>
      if date_of reference_dt =? date_of now_dt then (s, reference_dt)
      else
        let midnight := combine_min (date_of reference_dt + 1) in
        let secs_to_midnight := total_seconds midnight reference_dt in
        let s1 :=
          if 0 <? secs_to_midnight then
            _finalize_current_session_row midnight
              (_add_to_daily_total (date_of reference_dt) a
                 secs_to_midnight s)
          else s in
        let s2 := set_run true (Some (mktime midnight)) (Some midnight) s1 in
        (_create_new_session_row midnight s2, midnight)
  | _, _ => (s, reference_dt)
  end.

Definition _do_autosave (now_dt : datetime) (s : App) : App :=
  let ref := _last_autosave_dt s in
  if negb (running s) || negb (is_some (current_activity_id s)) then
    set_last_autosave now_dt s
  else
    let '(s1, ref) := _rollover_midnight_if_needed ref now_dt s in
    let delta_sec := total_seconds now_dt ref in
    let s2 :=
      match current_activity_id s1 with
      | Some a =>
          if 0 <? delta_sec then
            set_last_autosave now_dt
              (_add_to_daily_total (date_of now_dt) a delta_sec s1)
          else s1
      | None => s1
      end in
    _update_current_session_row now_dt s2.

(** ** Switch / Start / Stop *)

(** [custom] is the answer of the "Custom Activity" dialog. *)
Definition _switch_activity (custom : option string)
    (end_dt now : datetime) (s : App) : App :=
  let selected := activity_var s in
  if String.eqb selected "Custom" then
    let prev :=
      match current_activity_name s with
      | Some n => if truthy n then n else _first_non_custom_activity (db s)
      | None => _first_non_custom_activity (db s)
      end in
    let s1 := set_activity_var prev s in
    match custom with
    | Some c =>
        if truthy c then
          let '(d', _) := _get_or_create_activity c (db s1) in
          _start_activity c end_dt now
            (set_activity_var c (set_db (fun _ => d') s1))
        else s1
    | None => s1
    end
  else _start_activity selected end_dt now s.

Definition start (end_dt now : datetime) (s : App) : App :=
  if negb (running s) then
    let name :=
      if truthy (activity_var s) then activity_var s
      else _first_non_custom_activity (db s) in
    _start_activity name end_dt now s
  else s.

(** [now_dt] is the clock read of the final autosave, [end_dt] the one of
    the finalisation. *)
Definition stop (now_dt end_dt : datetime) (s : App) : App :=
  _save_previous_activity_if_running end_dt (_do_autosave now_dt s).

Definition HK_WORK : Z := 1.
Definition HK_STUDY : Z := 2.
Definition HK_BREAK : Z := 3.
Definition HK_WASTE : Z := 4.
Definition HK_PROJECTS : Z := 5.

Definition hotkey_mapping (hk_id : Z) : option string :=
  if hk_id =? HK_WORK then Some "Work"
  else if hk_id =? HK_STUDY then Some "Study"
  else if hk_id =? HK_BREAK then Some "Break"
  else if hk_id =? HK_WASTE then Some "Waste"
  else if hk_id =? HK_PROJECTS then Some "Projects"
  else None.

Definition _on_hotkey (hk_id : Z) (end_dt now : datetime) (s : App) : App :=
  match hotkey_mapping hk_id with
  | Some name => _start_activity name end_dt now (set_activity_var name s)
  | None => s
  end.

(** The 10 ms clock refresh: its "safety net" autosave on a date change. *)
Definition _update_clock (now_dt autosave_now : datetime) (s : App) : App :=
  if running s
     && negb (date_of now_dt =? date_of (_last_autosave_dt s))
  then _do_autosave autosave_now s
  else s.

(** [StopwatchApp.__init__] on the database file as found at [t0]. *)
Definition StopwatchApp_init (d : DB) (t0 end_dt now : datetime) : App :=
  let d1 := _seed_default_activities d in
  let default_name := _first_non_custom_activity d1 in
  _start_activity default_name end_dt now
    (mkApp d1 false None None None None None t0 default_name).

(** The database file before its first use. *)
Definition empty_db : DB := mkDB [] ∅ ∅.

(** ** Clock display *)

(** [time.time()] has sub-second resolution: it is read in microseconds,
    and the float arithmetic of [_current_time_text] is done exactly. *)
Definition MICRO : Z := 1000000.

(** The local [elapsed] of [_current_time_text], in microseconds. *)
Definition current_elapsed (time_us : Z) (s : App) : Z :=
  match running s, start_time s with
  | true, Some st => time_us - st * MICRO
  | _, _ => 0
  end.

(** The format spec [:02]: zero-padded to width 2, the sign included. *)
Definition fmt02 (z : Z) : string :=
  if (0 <=? z) && (z <? 10) then "0" +:+ pretty z else pretty z.

Definition _current_time_text (time_us : Z) (s : App) : string :=
  let elapsed := current_elapsed time_us s in
  let mins := elapsed / (60 * MICRO) in
  let secs := elapsed mod (60 * MICRO) in
  let hrs := mins / 60 in
  let mins := mins mod 60 in
  let cs := Z.quot (Z.rem elapsed MICRO * 100) MICRO in
  fmt02 hrs +:+ ":" +:+ fmt02 mins +:+ ":" +:+ fmt02 (Z.quot secs MICRO)
  +:+ "." +:+ fmt02 cs.

(** ** Traces of user and timer events *)

Inductive Op :=
| OpStart (now : datetime)
| OpSwitch (selected : string) (custom : option string) (now : datetime)
| OpHotkey (hk_id : Z) (now : datetime)
| OpStop (now : datetime)
| OpTick (now : datetime).

Definition op_time (o : Op) : datetime :=
  match o with
  | OpStart now | OpSwitch _ _ now | OpHotkey _ now
  | OpStop now | OpTick now => now
  end.

(** One event; every clock read it makes returns the event's instant.
    A radio button stores its value in [activity_var] before it runs its
    command. *)
Definition step (s : App) (o : Op) : App :=
  match o with
  | OpStart now => start now now s
  | OpSwitch selected custom now =>
      _switch_activity custom now now (set_activity_var selected s)
  | OpHotkey hk_id now => _on_hotkey hk_id now now s
  | OpStop now => stop now now s
  | OpTick now => _do_autosave now s
  end.

Definition run (s : App) (ops : list Op) : App := foldl step s ops.

(** ** Quantities the properties are stated with *)

(** The guard of [_do_autosave] and of the rollover: a session is being
    accounted for. *)
Definition tracking (s : App) : bool :=
  running s && is_some (current_activity_id s).

(** The rows of [sessions] that are live: the row [current_session_id]
    points to, the only one the code still updates. *)
Definition live_rows (s : App) : gmap Z Session :=
  filter (fun kr => current_session_id s = Some kr.1) (sessions (db s)).

(** [duration_sec] of the live row, 0 without one. *)
Definition live_duration (s : App) : Z :=
  match current_session_id s with
  | Some k => default 0 (duration_sec <$> sessions (db s) !! k)
  | None => 0
  end.

(** Running time not yet credited at instant [now]. *)
Definition pending (now : datetime) (s : App) : Z :=
  if running s then now - _last_autosave_dt s else 0.

(** Seconds of the interval from [a] to [b] that fall on calendar day [d]. *)
Definition overlap (d : date) (a b : datetime) : Z :=
  Z.max 0 (Z.min b (combine_min (d + 1)) - Z.max a (combine_min d)).

(** Whether [s] is Running activity [a]. *)
Definition running_on (a : Z) (s : App) : bool :=
  running s && bool_decide (current_activity_id s = Some a).

(** Uncredited running time of activity [a] that fell on day [d]. *)
Definition pending_on (d : date) (a : Z) (now : datetime) (s : App) : Z :=
  if running_on a s then overlap d (_last_autosave_dt s) now else 0.

(** Wall-clock time in the Running state along a trace that starts in
    state [s] at instant [t]: the state between two events is the one the
    earlier event left. *)
Fixpoint running_time (s : App) (t : datetime) (ops : list Op) : Z :=
  match ops with
  | [] => 0
  | o :: r =>
      (if running s then op_time o - t else 0)
      + running_time (step s o) (op_time o) r
  end.

(** The same, restricted to activity [a] and calendar day [d]. *)
Fixpoint running_time_on (d : date) (a : Z) (s : App) (t : datetime)
    (ops : list Op) : Z :=
  match ops with
  | [] => 0
  | o :: r =>
      (if running_on a s then overlap d t (op_time o) else 0)
      + running_time_on d a (step s o) (op_time o) r
  end.

(** Instant of the last event of a trace that starts at [t]. *)
Definition end_time (t : datetime) (ops : list Op) : datetime :=
  foldl (fun _ o => op_time o) t ops.

(** The first midnight after [ref]. *)
Definition next_midnight (ref : datetime) : datetime :=
  combine_min (date_of ref + 1).

(** The state invariant of the tracker: a live session pointer exists
    exactly when Running, and then the start time and the activity are set
    and the pointed row belongs to the current activity. *)
Definition consistent (s : App) : bool :=
  match current_session_id s with
  | Some k =>
      running s && is_some (start_time s)
      && match sessions (db s) !! k, current_activity_id s with
         | Some r, Some a => activity_id r =? a
         | _, _ => false
         end
  | None => negb (running s)
  end.

(** Events the conservation law covers: the clock does not go back, an
    activity is opened from Idle (the Start button does nothing else), and
    no tick reads exactly the midnight that ends the checkpoint's day. *)
Definition op_admissible (s : App) (t : datetime) (o : Op) : bool :=
  (t <=? op_time o)
  && match o with
     | OpStart _ | OpStop _ => true
     | OpSwitch _ _ _ | OpHotkey _ _ => negb (running s)
     | OpTick now =>
         negb (running s)
         || negb (now =? next_midnight (_last_autosave_dt s))
     end.

Fixpoint admissible (s : App) (t : datetime) (ops : list Op) : bool :=
  match ops with
  | [] => true
  | o :: r => op_admissible s t o && admissible (step s o) (op_time o) r
  end.

(** Events that reconcile across at most one midnight. *)
Definition op_one_midnight (s : App) (o : Op) : bool :=
  match o with
  | OpTick now | OpStop now =>
      negb (running s)
      || (date_of now <=? date_of (_last_autosave_dt s) + 1)
  | _ => true
  end.

Fixpoint one_midnight (s : App) (ops : list Op) : bool :=
  match ops with
  | [] => true
  | o :: r => op_one_midnight s o && one_midnight (step s o) r
  end.

(** ** Reporting helpers *)

(** [_fmt_short]: the whole hours and minutes of a number of seconds. *)
Definition _fmt_short (secs : Z) : string :=
  let h := secs / 3600 in
  let m := (secs mod 3600) / 60 in
  if negb (h =? 0) && negb (m =? 0) then
    pretty h +:+ "h " +:+ pretty m +:+ "m"
  else if negb (h =? 0) then pretty h +:+ "h"
  else pretty m +:+ "m".

(** The rows of [SELECT a.name, dt.seconds FROM daily_totals dt JOIN
    activities a ON a.id = dt.activity_id WHERE dt.date = ?], listed in
    the order of [activities]. *)
Definition today_rows (today : date) (d : DB) : list (string * Z) :=
  omap (fun r => (fun sec => (snd r, sec)) <$> daily_totals d !! (today, fst r))
    (activities d).

(** [_get_today_totals]: the dict comprehension over those rows (a later
    row with the same name replaces an earlier one); [today] is the date
    of the clock reading. *)
Definition _get_today_totals (today : date) (s : App) : gmap string Z :=
  foldl (fun m r => <[fst r := snd r]> m) ∅ (today_rows today (db s)).

(** ** Further invariants *)

(** What the PRIMARY KEY and the UNIQUE COLLATE NOCASE constraint of
    [activities] guarantee. *)
Definition registry_ok (acts : list (Z * string)) : Prop :=
  NoDup (fst <$> acts)
  /\ NoDup ((fun r => nocase_fold (snd r)) <$> acts).

(** A session row whose duration is the clamped difference of the epoch
    times ([time.mktime]) of its two timestamps. *)
Definition duration_ok (r : Session) : Prop :=
  duration_sec r = Z.max 0 (mktime (end_ts r) - mktime (start_ts r)).

Definition rows_ok (ss : gmap Z Session) : Prop :=
  map_Forall (fun _ r => duration_ok r) ss.

(** The in-memory start time is the epoch time of the [start_ts] of the
    live row. *)
Definition live_start_ok (s : App) : Prop :=
  forall k st r,
    current_session_id s = Some k -> running s = true ->
    start_time s = Some st -> sessions (db s) !! k = Some r ->
    st = mktime (start_ts r).

(** The state [_rollover_midnight_if_needed] returns on a date change:
    the time to midnight is credited to the checkpoint's date, the live
    row is closed at midnight and a new one is opened there. *)
Definition rolled_over (a : Z) (s : App) : App :=
  let ref := _last_autosave_dt s in
  let M := next_midnight ref in
  _create_new_session_row M
    (set_run true (Some (mktime M)) (Some M)
       (_finalize_current_session_row M
          (_add_to_daily_total (date_of ref) a (total_seconds M ref) s))).

(** The foreign keys of [sessions] and [daily_totals] refer to rows of
    [activities]. *)
Definition db_fk_ok (d : DB) : Prop :=
  map_Forall (fun _ r => activity_id r ∈ (fst <$> activities d))
    (sessions d)
  /\ map_Forall (fun key _ => snd key ∈ (fst <$> activities d))
       (daily_totals d).

(** So does the activity id held in memory. *)
Definition fk_ok (s : App) : Prop :=
  db_fk_ok (db s)
  /\ forall a, current_activity_id s = Some a ->
               a ∈ (fst <$> activities (db s)).


(** [StopwatchApp.__init__] to its end: after [_start_activity] on the
    default activity ([StopwatchApp_init]) come the overlay, the hotkey
    thread and the close handler, which leave the tracker alone, and the
    first clock refresh [self._update_clock()], with its own reading
    [clock] of the clock and, on a date change, that of [_do_autosave]. *)
Definition StopwatchApp_launch (d : DB)
    (t0 end_dt now clock autosave_now : datetime) : App :=
  _update_clock clock autosave_now (StopwatchApp_init d t0 end_dt now).

(** ** Scenarios used as concrete inputs *)

(** The application launched on a new database file at instant [t]; it
    starts the alphabetically first activity, "Break" (id 3). *)
Definition fresh_app (t : datetime) : App :=
  StopwatchApp_init empty_db t t t.

(** The user then picks "Work" (id 1) at the same instant: the tracker is
    Running "Work" with a live session and the checkpoint both at [t]. *)
Definition working_since (t : datetime) : App :=
  step (fresh_app t) (OpSwitch "Work" None t).

(** * Properties *)

(** ** Storage *)

Section Storage.

Implicit Types (m : gmap (Z * Z) Z) (ss : gmap Z Session).

Lemma total_credit_insert_fresh m k v :
  m !! k = None -> total_credit (<[k := v]> m) = v + total_credit m.
Proof.
  intros Hk. unfold total_credit.
  rewrite map_fold_insert_L; [done | intros; lia | done].
Qed.

Lemma total_credit_lookup m k v :
  m !! k = Some v -> total_credit m = v + total_credit (delete k m).
Proof.
  intros Hk. unfold total_credit.
  erewrite map_fold_delete_L; [done | intros; lia | done].
Qed.

Lemma total_credit_upsert d a secs m :
  total_credit (upsert_daily_total d a secs m) = total_credit m + secs.
Proof.
  unfold upsert_daily_total.
  destruct (m !! (d, a)) as [v|] eqn:Hk; simpl.
  - rewrite <- insert_delete_eq.
    rewrite total_credit_insert_fresh by apply lookup_delete_eq.
    rewrite (total_credit_lookup m (d, a) v Hk). lia.
  - rewrite total_credit_insert_fresh by done. lia.
Qed.

Lemma daily_total_upsert d a secs m d' a' :
  daily_total (upsert_daily_total d a secs m) d' a'
  = daily_total m d' a' + (if decide ((d, a) = (d', a')) then secs else 0).
Proof.
  unfold daily_total, upsert_daily_total.
  destruct (decide ((d, a) = (d', a'))) as [<-|Hne].
  - by rewrite lookup_insert_eq.
  - rewrite lookup_insert_ne by done. lia.
Qed.

Lemma max_session_id_bound ss k :
  is_Some (ss !! k) -> k <= max_session_id ss.
Proof.
  unfold max_session_id. revert k.
  apply (map_fold_weak_ind
           (fun acc ss => forall k, is_Some (ss !! k) -> k <= acc)).
  - intros k [r Hr]. by rewrite lookup_empty in Hr.
  - intros i r ss' acc Hi IH k Hk.
    destruct (decide (i = k)) as [->|Hne]; [lia|].
    rewrite lookup_insert_ne in Hk by done.
    specialize (IH k Hk). lia.
Qed.

Lemma max_session_id_fresh ss : ss !! (max_session_id ss + 1) = None.
Proof.
  destruct (ss !! (max_session_id ss + 1)) eqn:Hk; [|done].
  pose proof (max_session_id_bound ss (max_session_id ss + 1)
                (mk_is_Some _ _ Hk)).
  lia.
Qed.

End Storage.

(** ** Activity registry *)

Section Registry.

Implicit Types (acts : list (Z * string)) (name : string).

Lemma nocase_eqb_fold name name' r :
  nocase_fold name = nocase_fold name' ->
  nocase_eqb r name = nocase_eqb r name'.
Proof. unfold nocase_eqb. by intros ->. Qed.

Lemma nocase_eqb_refl name : nocase_eqb name name = true.
Proof. unfold nocase_eqb. apply String.eqb_refl. Qed.

Lemma find_existsb {A} (p : A -> bool) (l : list A) :
  existsb p l = true -> is_Some (find p l).
Proof.
  induction l as [|x l IH]; simpl; [done|].
  destruct (p x); [eauto | exact IH].
Qed.

Lemma existsb_pointwise {A} (p q : A -> bool) (l : list A) :
  (forall x, p x = q x) -> existsb p l = existsb q l.
Proof. intros E. induction l as [|x l IH]; simpl; [done|]. by rewrite E, IH. Qed.

Lemma find_pointwise {A} (p q : A -> bool) (l : list A) :
  (forall x, p x = q x) -> find p l = find q l.
Proof. intros E. induction l as [|x l IH]; simpl; [done|]. by rewrite E, IH. Qed.

Lemma existsb_insert_or_ignore name acts :
  existsb (fun r => nocase_eqb (snd r) name)
    (insert_or_ignore_activity name acts) = true.
Proof.
  unfold insert_or_ignore_activity.
  destruct (existsb _ acts) eqn:He; [done|].
  rewrite existsb_app. simpl. rewrite nocase_eqb_refl.
  by rewrite orb_true_r.
Qed.

Lemma insert_or_ignore_present name acts :
  existsb (fun r => nocase_eqb (snd r) name) acts = true ->
  insert_or_ignore_activity name acts = acts.
Proof. unfold insert_or_ignore_activity. by intros ->. Qed.

(** The SELECT of [_get_or_create_activity] always returns a row. *)
Lemma get_or_create_is_Some name d :
  is_Some (snd (_get_or_create_activity name d)).
Proof.
  unfold _get_or_create_activity, select_activity_id. simpl.
  destruct (find_existsb _ _ (existsb_insert_or_ignore name (activities d)))
    as [r ->]. simpl. eauto.
Qed.

End Registry.

(** C9, as stated, fails for letters outside ASCII: the NOCASE collation
    of the [name] column folds the 26 letters A-Z only.  On a seeded
    database, "Über" and its lower-case form "über" differ in a byte that
    is not folded (C3 9C against C3 BC in UTF-8): the first call inserts
    row 7, the second finds no match under NOCASE, inserts row 8 and
    returns that other id. *)
Lemma nocase_misses_non_ascii_casing :
  let '(d1, id1) :=
    _get_or_create_activity "Über" (_seed_default_activities empty_db) in
  let '(d2, id2) := _get_or_create_activity "über" d1 in
  id1 = Some 7 /\ id2 = Some 8 /\ id2 <> id1
  /\ length (activities d2) = S (length (activities d1)).
Proof.
  vm_compute. split; [reflexivity|]. split; [reflexivity|].
  split; [discriminate|reflexivity].
Qed.

(** C9 (amended) - Registry idempotence up to ASCII case.  For two names
    that differ only in the case of the letters A-Z (equal under the
    NOCASE collation of the [name] column), [_get_or_create_activity]
    returns the same activity id for both, that id is the id of a row of
    the table whose name is such a variant, and the second call leaves
    the [activities] table exactly as the first call left it: no second
    row is created, and the first call added at most one. *)
Theorem get_or_create_nocase_idempotent (name name' : string) (d : DB) :
  nocase_fold name = nocase_fold name' ->
  let '(d1, id1) := _get_or_create_activity name d in
  let '(d2, id2) := _get_or_create_activity name' d1 in
  (exists i n,
     id1 = Some i /\ In (i, n) (activities d1)
     /\ nocase_fold n = nocase_fold name)
  /\ id2 = id1 /\ d2 = d1
  /\ (length (activities d1) <= S (length (activities d)))%nat.
Proof.
  intros Hfold. unfold _get_or_create_activity. simpl.
  pose proof (existsb_insert_or_ignore name (activities d)) as Hex.
  assert (Hex' :
    existsb (fun r => nocase_eqb (snd r) name')
      (insert_or_ignore_activity name (activities d)) = true).
  { rewrite <- Hex. apply existsb_pointwise. intros r.
    symmetry. by apply nocase_eqb_fold. }
  rewrite (insert_or_ignore_present name' _ Hex').
  split.
  { unfold select_activity_id.
    destruct (find_existsb _ _ Hex) as [[i n] Hf]. rewrite Hf.
    apply find_some in Hf as [Hin Hn]. exists i, n.
    split; [done|]. split; [done|].
    unfold nocase_eqb in Hn. by apply String.eqb_eq in Hn. }
  split.
  { unfold select_activity_id. f_equal. apply find_pointwise. intros r.
    symmetry. by apply nocase_eqb_fold. }
  split.
  { unfold set_activities. simpl.
    by rewrite (insert_or_ignore_present name' _ Hex'). }
  unfold insert_or_ignore_activity.
  destruct (existsb _ (activities d)); [lia|].
  rewrite length_app. simpl. lia.
Qed.

Lemma get_or_create_nocase_idempotent_witness :
  let '(d1, id1) :=
    _get_or_create_activity "Work" (_seed_default_activities empty_db) in
  let '(d2, id2) := _get_or_create_activity "WORK" d1 in
  (exists i n,
     id1 = Some i /\ In (i, n) (activities d1)
     /\ nocase_fold n = nocase_fold "Work")
  /\ id2 = id1 /\ d2 = d1
  /\ (length (activities d1)
      <= S (length (activities (_seed_default_activities empty_db))))%nat.
Proof.
  apply (get_or_create_nocase_idempotent "Work" "WORK"
           (_seed_default_activities empty_db)).
  reflexivity.
Defined.

(** ** Calendar facts *)

Section Calendar.

Lemma date_of_bounds (t : datetime) :
  combine_min (date_of t) <= t < combine_min (date_of t + 1).
Proof.
  unfold combine_min, date_of, SECONDS_PER_DAY.
  Z.div_mod_to_equations. lia.
Qed.

Lemma date_of_combine_min (d : date) : date_of (combine_min d) = d.
Proof.
  unfold combine_min, date_of, SECONDS_PER_DAY.
  Z.div_mod_to_equations. lia.
Qed.

Lemma date_of_mono (a b : datetime) : a <= b -> date_of a <= date_of b.
Proof.
  unfold date_of, SECONDS_PER_DAY. intros.
  Z.div_mod_to_equations. lia.
Qed.

Lemma next_midnight_gt (ref : datetime) : ref < next_midnight ref.
Proof. unfold next_midnight. pose proof (date_of_bounds ref). lia. Qed.

Lemma secs_to_midnight_pos (ref : datetime) :
  (0 <? total_seconds (combine_min (date_of ref + 1)) ref) = true.
Proof.
  pose proof (next_midnight_gt ref). unfold next_midnight in *.
  unfold total_seconds. lia.
Qed.

Lemma overlap_same_day (d : date) (a b : datetime) :
  a <= b -> date_of a = date_of b ->
  overlap d a b = if decide (d = date_of b) then b - a else 0.
Proof.
  intros Hab Hd. unfold overlap.
  pose proof (date_of_bounds a). pose proof (date_of_bounds b).
  rewrite Hd in *. unfold combine_min, SECONDS_PER_DAY in *.
  case_decide; subst; lia.
Qed.

Lemma overlap_next_day (d : date) (a b : datetime) :
  date_of b = date_of a + 1 ->
  overlap d a b =
    if decide (d = date_of a) then next_midnight a - a
    else if decide (d = date_of b) then b - next_midnight a
    else 0.
Proof.
  intros Hd. unfold overlap, next_midnight.
  pose proof (date_of_bounds a). pose proof (date_of_bounds b).
  rewrite Hd in *. unfold combine_min, SECONDS_PER_DAY in *.
  repeat case_decide; subst; lia.
Qed.

Lemma overlap_split (d : date) (a b c : datetime) :
  a <= b -> b <= c -> overlap d a c = overlap d a b + overlap d b c.
Proof. unfold overlap. lia. Qed.

Lemma overlap_empty (d : date) (a : datetime) : overlap d a a = 0.
Proof. unfold overlap, combine_min, SECONDS_PER_DAY. lia. Qed.

End Calendar.

(** ** The autosave tick *)

Ltac unfold_ops :=
  unfold _do_autosave, _rollover_midnight_if_needed, stop, start,
    _switch_activity, _on_hotkey, _start_activity,
    _save_previous_activity_if_running, _finalize_current_session_row,
    _update_current_session_row, _create_new_session_row,
    _add_to_daily_total, _get_or_create_activity, insert_session in *.

Ltac app_simpl :=
  cbn [db running start_time start_timestamp current_activity_id
       current_activity_name current_session_id _last_autosave_dt
       activity_var activities sessions daily_totals
       set_db set_sessions set_daily_totals set_activities set_run
       set_activity set_last_autosave set_current_session_id
       set_activity_var negb orb andb is_some fst snd] in *.

Ltac app_cases := repeat (case_match; app_simpl); simplify_eq; try done.

Section Autosave.

Implicit Types (s : App) (now : datetime) (a : Z).

Lemma tracking_inv s :
  tracking s = true ->
  running s = true /\ exists a, current_activity_id s = Some a.
Proof.
  unfold tracking. destruct (running s), (current_activity_id s); naive_solver.
Qed.

(** An autosave outside a tracked session only moves the checkpoint. *)
Lemma do_autosave_idle s now :
  tracking s = false -> _do_autosave now s = set_last_autosave now s.
Proof.
  unfold tracking, _do_autosave.
  destruct (running s), (current_activity_id s); done.
Qed.

(** What an autosave of a tracked session credits, and where it leaves
    the checkpoint. *)
Lemma do_autosave_tracking s now a :
  running s = true -> current_activity_id s = Some a ->
  let s' := _do_autosave now s in
  let ref := _last_autosave_dt s in
  let M := next_midnight ref in
  running s' = true
  /\ current_activity_id s' = Some a
  /\ activities (db s') = activities (db s)
  /\ daily_totals (db s') =
       (if date_of ref =? date_of now then
          if 0 <? now - ref
          then upsert_daily_total (date_of now) a (now - ref)
                 (daily_totals (db s))
          else daily_totals (db s)
        else
          let m1 :=
            upsert_daily_total (date_of ref) a (M - ref)
              (daily_totals (db s)) in
          if 0 <? now - M
          then upsert_daily_total (date_of now) a (now - M) m1
          else m1)
  /\ _last_autosave_dt s' =
       (if date_of ref =? date_of now
        then if 0 <? now - ref then now else ref
        else if 0 <? now - M then now else ref).
Proof.
  destruct s as [d run st sts ca cn cs la av]. app_simpl. intros -> ->.
  unfold _do_autosave, _rollover_midnight_if_needed. app_simpl.
  rewrite secs_to_midnight_pos. unfold next_midnight, total_seconds.
  destruct (date_of la =? date_of now).
  - destruct (0 <? now - la); unfold_ops; app_simpl; app_cases.
  - destruct (0 <? now - combine_min (date_of la + 1)); unfold_ops;
      app_simpl; app_cases.
Qed.

End Autosave.

(** ** Session rows written by a tick *)

Section Rollover.

Implicit Types (s : App) (now : datetime) (a k : Z).

Lemma size_update_session e d k (ss : gmap Z Session) :
  size (update_session e d k ss) = size ss.
Proof.
  unfold update_session.
  rewrite <- !(size_dom (D := gset Z)). by rewrite dom_alter_L.
Qed.

(** On a date change the tick closes the live row at the first midnight
    after the checkpoint, inserts one row that starts there, and brings
    that new row up to [now]. *)
Lemma do_autosave_rollover_sessions s now a k st :
  running s = true -> current_activity_id s = Some a ->
  current_session_id s = Some k -> start_time s = Some st ->
  date_of (_last_autosave_dt s) <> date_of now ->
  let M := next_midnight (_last_autosave_dt s) in
  let ss1 := update_session M (Z.max 0 (M - st)) k (sessions (db s)) in
  let k' := max_session_id ss1 + 1 in
  let s' := _do_autosave now s in
  sessions (db s')
    = update_session now (Z.max 0 (now - M)) k'
        (<[k' := mkSession a M M 0]> ss1)
  /\ current_session_id s' = Some k'
  /\ start_time s' = Some M.
Proof.
  destruct s as [d run stt sts ca cn cs la av]. app_simpl.
  intros -> -> -> -> Hd.
  unfold _do_autosave, _rollover_midnight_if_needed. app_simpl.
  rewrite secs_to_midnight_pos. unfold next_midnight, total_seconds, mktime.
  apply Z.eqb_neq in Hd. rewrite Hd.
  destruct (0 <? now - combine_min (date_of la + 1)); unfold_ops;
    unfold mktime; app_simpl; done.
Qed.

(** A tick that does not change the date brings the live row up to
    [now] and adds no row. *)
Lemma do_autosave_same_day_sessions s now a :
  running s = true -> current_activity_id s = Some a ->
  date_of (_last_autosave_dt s) = date_of now ->
  let s' := _do_autosave now s in
  current_session_id s' = current_session_id s
  /\ start_time s' = start_time s
  /\ sessions (db s') =
       match current_session_id s, start_time s with
       | Some k, Some st =>
           update_session now (Z.max 0 (now - st)) k (sessions (db s))
       | _, _ => sessions (db s)
       end.
Proof.
  destruct s as [d run stt sts ca cn cs la av]. app_simpl.
  intros -> -> Hd.
  unfold _do_autosave, _rollover_midnight_if_needed. app_simpl.
  apply Z.eqb_eq in Hd. rewrite Hd. unfold total_seconds, mktime.
  destruct (0 <? now - la); unfold_ops; unfold mktime; app_simpl; app_cases.
Qed.

End Rollover.
(** ** Day split *)

(** C2 - Day-split correctness.  With a session for "Work" Running whose
    start and reconciliation checkpoint are both 2024-01-01 23:58:00, the
    tick at 2024-01-02 00:02:00 adds exactly 120 seconds to the daily total
    of (2024-01-01, Work) and exactly 120 seconds to that of
    (2024-01-02, Work), leaves the original session row with
    end_ts = 2024-01-02 00:00:00 and duration_sec = 120, and opens a new
    row for Work, now the live one, with start_ts = 2024-01-02 00:00:00
    (brought up to the tick: end_ts = 00:02:00, duration_sec = 120). *)
Theorem day_split_correctness (s : App) (w k e d : Z) :
  let T0 := mk_datetime 2024 1 1 23 58 0 in
  let M := mk_datetime 2024 1 2 0 0 0 in
  let T1 := mk_datetime 2024 1 2 0 2 0 in
  select_activity_id "Work" (activities (db s)) = Some w ->
  running s = true ->
  current_activity_id s = Some w ->
  start_time s = Some T0 ->
  _last_autosave_dt s = T0 ->
  current_session_id s = Some k ->
  sessions (db s) !! k = Some (mkSession w T0 e d) ->
  let s' := _do_autosave T1 s in
  daily_total (daily_totals (db s')) (ymd2ord 2024 1 1) w
    = daily_total (daily_totals (db s)) (ymd2ord 2024 1 1) w + 120
  /\ daily_total (daily_totals (db s')) (ymd2ord 2024 1 2) w
    = daily_total (daily_totals (db s)) (ymd2ord 2024 1 2) w + 120
  /\ sessions (db s') !! k = Some (mkSession w T0 M 120)
  /\ exists k',
       k' <> k
       /\ sessions (db s) !! k' = None
       /\ current_session_id s' = Some k'
       /\ sessions (db s') !! k' = Some (mkSession w M T1 120)
       /\ running s' = true
       /\ current_activity_id s' = Some w.
Proof.
  intros T0 M T1 _ Hrun Ha Hst Hlast Hk Hrow s'.
  assert (HM : next_midnight T0 = M) by reflexivity.
  assert (Hd0 : date_of T0 = ymd2ord 2024 1 1) by reflexivity.
  assert (Hd1 : date_of T1 = ymd2ord 2024 1 2) by reflexivity.
  assert (Hne : date_of (_last_autosave_dt s) <> date_of T1).
  { rewrite Hlast. by vm_compute. }
  destruct (do_autosave_tracking s T1 w Hrun Ha)
    as (Hrun' & Ha' & _ & Htot & _).
  destruct (do_autosave_rollover_sessions s T1 w k T0 Hrun Ha Hk Hst Hne)
    as (Hss & Hk' & _).
  fold s' in Hrun', Ha', Htot, Hss, Hk'.
  rewrite Hlast, HM in Htot, Hss, Hk'.
  apply Z.eqb_neq in Hne. rewrite Hlast in Hne. rewrite Hne in Htot.
  replace (0 <? T1 - M) with true in Htot by reflexivity.
  replace (T1 - M) with 120 in Htot, Hss by reflexivity.
  replace (M - T0) with 120 in Htot, Hss, Hk' by reflexivity.
  change (Z.max 0 120) with 120 in Hss, Hk'.
  assert (Hdd : ymd2ord 2024 1 2 <> ymd2ord 2024 1 1) by by vm_compute.
  set (ss1 := update_session M 120 k (sessions (db s))) in *.
  set (k' := max_session_id ss1 + 1) in *.
  assert (Hfresh : ss1 !! k' = None) by apply max_session_id_fresh.
  assert (Hold : ss1 !! k = Some (mkSession w T0 M 120)).
  { unfold ss1, update_session. by rewrite lookup_alter_eq, Hrow. }
  assert (Hkk : k' <> k) by congruence.
  rewrite Htot, Hd0, Hd1, !daily_total_upsert.
  repeat split.
  - repeat case_decide; try lia; congruence.
  - repeat case_decide; try lia; congruence.
  - rewrite Hss. unfold update_session at 1.
    rewrite lookup_alter_ne, lookup_insert_ne by done. exact Hold.
  - exists k'. repeat split; try done.
    + unfold ss1, update_session in Hfresh.
      rewrite lookup_alter_ne in Hfresh by done. exact Hfresh.
    + rewrite Hss. unfold update_session at 1.
      by rewrite lookup_alter_eq, lookup_insert_eq.
Qed.

Lemma day_split_correctness_witness :
  let s := working_since (mk_datetime 2024 1 1 23 58 0) in
  let s' := _do_autosave (mk_datetime 2024 1 2 0 2 0) s in
  daily_total (daily_totals (db s')) (ymd2ord 2024 1 1) 1
    = daily_total (daily_totals (db s)) (ymd2ord 2024 1 1) 1 + 120
  /\ daily_total (daily_totals (db s')) (ymd2ord 2024 1 2) 1
    = daily_total (daily_totals (db s)) (ymd2ord 2024 1 2) 1 + 120
  /\ sessions (db s') !! 2
     = Some (mkSession 1 (mk_datetime 2024 1 1 23 58 0)
               (mk_datetime 2024 1 2 0 0 0) 120)
  /\ exists k',
       k' <> 2
       /\ sessions (db s) !! k' = None
       /\ current_session_id s' = Some k'
       /\ sessions (db s') !! k'
          = Some (mkSession 1 (mk_datetime 2024 1 2 0 0 0)
                    (mk_datetime 2024 1 2 0 2 0) 120)
       /\ running s' = true
       /\ current_activity_id s' = Some 1.
Proof.
  apply (day_split_correctness
           (working_since (mk_datetime 2024 1 1 23 58 0)) 1 2
           (mk_datetime 2024 1 1 23 58 0) 0);
    vm_compute; reflexivity.
Defined.

(** ** Ticks that read an earlier clock *)

(** C7, as stated, fails while Idle: an Idle tick stores [now] as the
    checkpoint unconditionally.  After "Work" is stopped at 12:01:00 the
    checkpoint is 12:01:00; a tick that reads 12:00:30 moves it back to
    12:00:30. *)
Lemma tick_backward_idle_moves_checkpoint :
  let s := step (working_since (mk_datetime 2024 1 1 12 0 0))
             (OpStop (mk_datetime 2024 1 1 12 1 0)) in
  let now := mk_datetime 2024 1 1 12 0 30 in
  running s = false
  /\ now < _last_autosave_dt s
  /\ _last_autosave_dt (_do_autosave now s) < _last_autosave_dt s.
Proof. vm_compute. done. Qed.

(** While Running, a clock that went back over a date change still
    triggers the midnight split: "Work" Running since 2024-01-02 00:05:00
    and a tick that reads 2024-01-01 23:55:00 credits the 86100 seconds up
    to the midnight that ends 2024-01-02. *)
Lemma tick_backward_over_date_change_credits :
  let s := working_since (mk_datetime 2024 1 2 0 5 0) in
  let now := mk_datetime 2024 1 1 23 55 0 in
  now < _last_autosave_dt s
  /\ daily_total (daily_totals (db s)) (ymd2ord 2024 1 2) 1 = 0
  /\ daily_total (daily_totals (db (_do_autosave now s)))
       (ymd2ord 2024 1 2) 1 = 86100.
Proof. vm_compute. done. Qed.

(** C7 (amended) - No negative credit.  For every tick whose [now] is
    earlier than the checkpoint: while a session is tracked and [now] is
    on the checkpoint's calendar date, no daily total changes and the
    checkpoint stays where it is; while none is tracked (Idle), no daily
    total changes and the checkpoint is set to [now]. *)
Theorem tick_backward_credits_nothing (s : App) (now : datetime) :
  now < _last_autosave_dt s ->
  let s' := _do_autosave now s in
  (tracking s = true ->
   date_of now = date_of (_last_autosave_dt s) ->
   daily_totals (db s') = daily_totals (db s)
   /\ _last_autosave_dt s' = _last_autosave_dt s)
  /\ (tracking s = false ->
      daily_totals (db s') = daily_totals (db s)
      /\ _last_autosave_dt s' = now).
Proof.
  intros Hlt s'. split.
  - intros Htr Hd. destruct (tracking_inv s Htr) as (Hrun & a & Ha).
    destruct (do_autosave_tracking s now a Hrun Ha)
      as (_ & _ & _ & Htot & Hlast).
    fold s' in Htot, Hlast. rewrite <- Hd, Z.eqb_refl in Htot, Hlast.
    assert (Hneg : (0 <? now - _last_autosave_dt s) = false) by lia.
    rewrite Hneg in Htot, Hlast. done.
  - intros Htr. unfold s'. rewrite (do_autosave_idle s now Htr). done.
Qed.

Lemma tick_backward_credits_nothing_witness :
  (let s := working_since (mk_datetime 2024 1 1 12 0 0) in
   let now := mk_datetime 2024 1 1 11 59 0 in
   let s' := _do_autosave now s in
   now < _last_autosave_dt s
   /\ tracking s = true
   /\ date_of now = date_of (_last_autosave_dt s)
   /\ daily_totals (db s') = daily_totals (db s)
   /\ _last_autosave_dt s' = _last_autosave_dt s)
  /\ (let s := step (working_since (mk_datetime 2024 1 1 12 0 0))
                (OpStop (mk_datetime 2024 1 1 12 1 0)) in
      let now := mk_datetime 2024 1 1 12 0 30 in
      let s' := _do_autosave now s in
      now < _last_autosave_dt s
      /\ tracking s = false
      /\ daily_totals (db s') = daily_totals (db s)
      /\ _last_autosave_dt s' = now).
Proof.
  split.
  - assert (Hlt : mk_datetime 2024 1 1 11 59 0
                  < _last_autosave_dt
                      (working_since (mk_datetime 2024 1 1 12 0 0)))
      by (vm_compute; reflexivity).
    destruct (tick_backward_credits_nothing _ _ Hlt) as [Hrun _].
    split; [exact Hlt|].
    split; [vm_compute; reflexivity|].
    split; [vm_compute; reflexivity|].
    apply Hrun; vm_compute; reflexivity.
  - assert (Hlt : mk_datetime 2024 1 1 12 0 30
                  < _last_autosave_dt
                      (step (working_since (mk_datetime 2024 1 1 12 0 0))
                         (OpStop (mk_datetime 2024 1 1 12 1 0))))
      by (vm_compute; reflexivity).
    destruct (tick_backward_credits_nothing _ _ Hlt) as [_ Hidle].
    split; [exact Hlt|].
    split; [vm_compute; reflexivity|].
    apply Hidle; vm_compute; reflexivity.
Defined.

(** ** Ticks after a gap of several days *)


Section Gap.

Implicit Types (s : App) (now : datetime) (a : Z).

(** Without a live row to close, the split still inserts its row. *)
Lemma rollover_adds_one_row s now a :
  running s = true -> current_activity_id s = Some a ->
  date_of (_last_autosave_dt s) <> date_of now ->
  current_session_id s = None \/ start_time s = None ->
  size (sessions (db (_do_autosave now s))) = S (size (sessions (db s))).
Proof.
  destruct s as [d run stt sts ca cn cs la av]. app_simpl.
  intros -> -> Hd Hnone.
  unfold _do_autosave, _rollover_midnight_if_needed. app_simpl.
  rewrite secs_to_midnight_pos. apply Z.eqb_neq in Hd. rewrite Hd.
  destruct (0 <? total_seconds now _); unfold_ops; app_simpl;
    destruct Hnone as [->| ->]; app_simpl;
    repeat (case_match; app_simpl); simplify_eq;
    rewrite ?size_update_session;
    apply map_size_insert_None, max_session_id_fresh.
Qed.

Lemma rollover_start_time s now a :
  running s = true -> current_activity_id s = Some a ->
  date_of (_last_autosave_dt s) <> date_of now ->
  start_time (_do_autosave now s)
  = Some (next_midnight (_last_autosave_dt s)).
Proof.
  destruct s as [d run stt sts ca cn cs la av]. app_simpl.
  intros -> -> Hd.
  unfold _do_autosave, _rollover_midnight_if_needed. app_simpl.
  rewrite secs_to_midnight_pos. apply Z.eqb_neq in Hd. rewrite Hd.
  unfold next_midnight, mktime.
  destruct (0 <? total_seconds now _); unfold_ops; app_simpl; app_cases.
Qed.

End Gap.



(** ** Starting an activity *)

Section Start.

Implicit Types (s : App) (name : string) (end_dt now : datetime).

(** [_start_activity] never writes to [daily_totals]. *)
Lemma start_activity_daily_totals name end_dt now s :
  daily_totals (db (_start_activity name end_dt now s))
  = daily_totals (db s).
Proof.
  unfold _start_activity, _get_or_create_activity. cbv zeta.
  unfold _create_new_session_row. app_simpl.
  destruct (select_activity_id name _); unfold insert_session; app_simpl;
    unfold _save_previous_activity_if_running,
      _finalize_current_session_row, _update_current_session_row;
    app_cases.
Qed.

(** [_start_activity] sets the checkpoint and the start time to its own
    clock reading. *)
Lemma start_activity_checkpoint name end_dt now s :
  let s' := _start_activity name end_dt now s in
  _last_autosave_dt s' = now
  /\ start_time s' = Some now
  /\ running s' = true.
Proof.
  unfold _start_activity.
  destruct (_get_or_create_activity name _) as [d' aid].
  unfold _create_new_session_row, mktime. app_simpl.
  destruct aid; unfold insert_session; app_simpl; done.
Qed.

End Start.

(** C4 - Start while Running flushes before closing: the code does not.
    "Work" has been Running since 12:00:00 with the checkpoint there; at
    12:00:30 "Study" is started.  The claim has the 30 seconds of "Work"
    credited to 2024-01-01 before its row is closed.  The code closes the
    row (duration 30) and moves the checkpoint to 12:00:30, but
    [daily_totals] is left as it was, and after "Study" is stopped at
    12:00:40 the day shows 10 seconds of "Study" and none of "Work". *)
Theorem start_while_running_drops_pending_credit :
  let t := mk_datetime 2024 1 1 12 0 0 in
  let s := working_since t in
  let s1 := _start_activity "Study" (t + 30) (t + 30) s in
  let s2 := stop (t + 40) (t + 40) s1 in
  running s = true
  /\ pending (t + 30) s = 30
  /\ sessions (db s1) !! 2 = Some (mkSession 1 t (t + 30) 30)
  /\ daily_totals (db s1) = daily_totals (db s)
  /\ _last_autosave_dt s1 = t + 30
  /\ daily_total (daily_totals (db s2)) (ymd2ord 2024 1 1) 1 = 0
  /\ daily_total (daily_totals (db s2)) (ymd2ord 2024 1 1) 2 = 10.
Proof. vm_compute. done. Qed.

(** ** Start button and activity picker *)

(** C5, as stated, fails in the Running state: the Start button is
    guarded by [if not self.running] and does nothing, the picker
    finalises and reopens.  With "Work" Running since 12:00:00 and "Work"
    selected again at 12:05:00, Start leaves the state untouched while the
    picker closes row 2 and opens row 3. *)
Lemma start_differs_from_switch_when_running :
  let s := working_since (mk_datetime 2024 1 1 12 0 0) in
  let now := mk_datetime 2024 1 1 12 5 0 in
  running s = true
  /\ step (set_activity_var "Work" s) (OpStart now) = s
  /\ current_session_id (step s (OpStart now)) = Some 2
  /\ current_session_id (step s (OpSwitch "Work" None now)) = Some 3
  /\ step (set_activity_var "Work" s) (OpStart now)
     <> step s (OpSwitch "Work" None now).
Proof.
  do 4 (split; [vm_compute; reflexivity|]).
  intros H. apply (f_equal current_session_id) in H.
  vm_compute in H. discriminate.
Qed.

(** C5 (amended) - Switch and start.  For every selected activity name
    other than the empty string and the "Custom" entry of the picker:
    in the Idle state the picker's [_switch_activity] performs exactly the
    same transition, storage writes included, as [start] (both open a
    session through [_start_activity]); in the Running state [start] does
    nothing, and [_switch_activity] alone finalises and reopens. *)
Theorem switch_is_start_when_idle (s : App) (custom : option string)
    (end_dt now : datetime) :
  activity_var s <> "" ->
  activity_var s <> "Custom" ->
  (running s = false ->
   _switch_activity custom end_dt now s = start end_dt now s)
  /\ (running s = true ->
      start end_dt now s = s
      /\ _switch_activity custom end_dt now s
         = _start_activity (activity_var s) end_dt now s).
Proof.
  intros Hne Hnc.
  assert (Hc : String.eqb (activity_var s) "Custom" = false)
    by by apply String.eqb_neq.
  assert (Ht : truthy (activity_var s) = true).
  { unfold truthy. apply negb_true_iff. by apply String.eqb_neq. }
  unfold _switch_activity, start. rewrite Hc, Ht.
  split; intros ->; done.
Qed.

Lemma switch_is_start_when_idle_witness :
  (let s := set_activity_var "Study"
              (step (working_since (mk_datetime 2024 1 1 12 0 0))
                 (OpStop (mk_datetime 2024 1 1 12 1 0))) in
   let now := mk_datetime 2024 1 1 12 5 0 in
   running s = false
   /\ _switch_activity None now now s = start now now s)
  /\ (let s := working_since (mk_datetime 2024 1 1 12 0 0) in
      let now := mk_datetime 2024 1 1 12 5 0 in
      running s = true
      /\ start now now s = s
      /\ _switch_activity None now now s
         = _start_activity (activity_var s) now now s).
Proof.
  split.
  - split; [vm_compute; reflexivity|].
    refine (proj1 (switch_is_start_when_idle _ None _ _ _ _) _);
      vm_compute; congruence.
  - split; [vm_compute; reflexivity|].
    refine (proj2 (switch_is_start_when_idle _ None _ _ _ _) _);
      vm_compute; congruence.
Defined.

(** ** Clock display *)

Section Display.

Implicit Types (s : App) (time_us : Z).

(** While Idle the elapsed time is zero. *)
Lemma current_elapsed_idle time_us s :
  running s = false -> current_elapsed time_us s = 0.
Proof. unfold current_elapsed. by intros ->. Qed.

(** While Running it is the clock reading minus the start time. *)
Lemma current_elapsed_running time_us s st :
  running s = true -> start_time s = Some st ->
  current_elapsed time_us s = time_us - st * MICRO.
Proof. unfold current_elapsed. by intros -> ->. Qed.

End Display.

(** C6 - currentElapsed contract: the clamp is missing.  The session
    started at second 100 and the clock reads second 95.  The claim has
    the elapsed time clamped to zero (display "00:00:00.00");
    [_current_time_text] computes -5 seconds and formats it as
    "-1:59:55.00".  [_update_current_session_row] clamps the same
    difference with [max(0.0, ...)]. *)
Theorem current_time_text_not_clamped :
  let s := mkApp empty_db true (Some 100) (Some 100) (Some 1) (Some "Work")
             (Some 1) 100 "Work" in
  let time_us := 95 * MICRO in
  current_elapsed time_us s = -5 * MICRO
  /\ _current_time_text time_us s = "-1:59:55.00"
  /\ _current_time_text (100 * MICRO) s = "00:00:00.00".
Proof. vm_compute. done. Qed.

(** ** Checkpoint and live session *)

(** C10 - Checkpoint reset on start: the invariant breaks at midnight.
    [_start_activity] does set the checkpoint to the new session's start
    (lemma [start_activity_checkpoint]).  But with "Work" started at
    2024-01-01 23:59:30, a tick that reads exactly 2024-01-02 00:00:00
    splits the day, opens the live session at 00:00:00, finds a remainder
    of 0 seconds and therefore leaves the checkpoint at 23:59:30, earlier
    than the live session's start.  The tick at 00:01:00 splits again from
    that stale checkpoint: 2024-01-01 ends up with 60 seconds of "Work"
    although only 30 were spent, and a second row starting at midnight is
    opened. *)
Theorem checkpoint_stale_after_midnight_tick :
  let t := mk_datetime 2024 1 1 23 59 30 in
  let M := mk_datetime 2024 1 2 0 0 0 in
  let s := working_since t in
  let s1 := _do_autosave M s in
  let s2 := _do_autosave (M + 60) s1 in
  _last_autosave_dt s = t
  /\ start_time s = Some t
  /\ start_time s1 = Some M
  /\ _last_autosave_dt s1 = t
  /\ _last_autosave_dt s1 < M
  /\ daily_total (daily_totals (db s1)) (ymd2ord 2024 1 1) 1 = 30
  /\ daily_total (daily_totals (db s2)) (ymd2ord 2024 1 1) 1 = 60
  /\ size (sessions (db s2)) = S (S (size (sessions (db s)))).
Proof. vm_compute. done. Qed.

(** ** The tracker's state invariant *)

Section Invariant.

Implicit Types (s : App) (now end_dt : datetime) (name : string).

Lemma consistent_spec s :
  consistent s = true <->
  match current_session_id s with
  | Some k =>
      running s = true /\ is_Some (start_time s)
      /\ exists r, sessions (db s) !! k = Some r
                   /\ current_activity_id s = Some (activity_id r)
  | None => running s = false
  end.
Proof.
  unfold consistent. destruct (current_session_id s) as [k|].
  - rewrite !andb_true_iff. split.
    + intros [[Hrun Hst] Hrow]. split; [done|].
      split; [by destruct (start_time s)|].
      destruct (sessions (db s) !! k) as [r|]; [|done].
      destruct (current_activity_id s) as [a|]; [|done].
      apply Z.eqb_eq in Hrow. subst a. eauto.
    + intros (Hrun & [st Hst] & r & Hr & Ha). rewrite Hrun, Hst, Hr, Ha.
      split; [done|]. apply Z.eqb_refl.
  - destruct (running s); split; done.
Qed.

Lemma consistent_tracking s :
  consistent s = true -> tracking s = running s.
Proof.
  intros H%consistent_spec. unfold tracking.
  destruct (running s) eqn:Hrun; [|done].
  destruct (current_session_id s); [|done].
  destruct H as (_ & _ & r & _ & ->). done.
Qed.

Lemma update_row_consistent end_dt s :
  consistent s = true ->
  consistent (_update_current_session_row end_dt s) = true.
Proof.
  intros H. unfold _update_current_session_row.
  destruct (running s) eqn:Hrun; [|done].
  destruct (current_session_id s) as [k|] eqn:Hk; [|done].
  destruct (start_time s) as [st|] eqn:Hst; [|done].
  apply consistent_spec in H. apply consistent_spec.
  rewrite Hk in H. destruct H as (_ & _ & r & Hr & Ha).
  simpl. rewrite Hk, Hrun, Hst. split; [done|]. split; [eauto|].
  unfold update_session. rewrite lookup_alter_eq, Hr. simpl. eauto.
Qed.

Lemma create_row_consistent now s a :
  running s = true -> is_Some (start_time s) ->
  current_activity_id s = Some a ->
  consistent (_create_new_session_row now s) = true.
Proof.
  intros Hrun Hst Ha. apply consistent_spec.
  unfold _create_new_session_row, insert_session. rewrite Ha. simpl.
  rewrite Hrun. split; [done|]. split; [done|].
  rewrite lookup_insert_eq. eauto.
Qed.

(** After the finalisation of [_save_previous_activity_if_running] a
    consistent tracker is Idle without a live row. *)
Lemma save_previous_idle end_dt s :
  consistent s = true ->
  let s' := _save_previous_activity_if_running end_dt s in
  current_session_id s' = None /\ running s' = false.
Proof.
  intros H%consistent_spec. unfold _save_previous_activity_if_running.
  destruct (running s) eqn:Hrun; simpl.
  - destruct (current_session_id s) as [k|] eqn:Hk; [|done].
    destruct H as (_ & [st Hst] & r & _ & Ha). rewrite Ha, Hst. simpl. done.
  - rewrite Hrun. destruct (current_session_id s); [|done].
    by destruct H.
Qed.

Lemma start_activity_consistent name end_dt now s :
  consistent (_start_activity name end_dt now s) = true.
Proof.
  unfold _start_activity.
  destruct (_get_or_create_activity name _) as [d' aid] eqn:Hg.
  destruct (get_or_create_is_Some name
              (db (_save_previous_activity_if_running end_dt s)))
    as [a Ha].
  rewrite Hg in Ha. simpl in Ha. subst aid.
  by apply (create_row_consistent _ _ a).
Qed.

Lemma update_row_frame end_dt s :
  exists f, _update_current_session_row end_dt s = set_db (set_sessions f) s.
Proof.
  unfold _update_current_session_row.
  destruct (running s); [destruct (current_session_id s), (start_time s)|];
    try (eexists; reflexivity);
    exists (fun m => m); by destruct s as [[] ? ? ? ? ? ? ? ?].
Qed.

Lemma create_row_activity now s :
  current_activity_id (_create_new_session_row now s)
  = current_activity_id s.
Proof.
  unfold _create_new_session_row, insert_session.
  by destruct (current_activity_id s) eqn:Ha.
Qed.

Lemma finalize_activity end_dt s :
  current_activity_id (_finalize_current_session_row end_dt s)
  = current_activity_id s.
Proof.
  unfold _finalize_current_session_row.
  by destruct (update_row_frame end_dt s) as [f ->].
Qed.

Lemma do_autosave_consistent now s :
  consistent s = true -> consistent (_do_autosave now s) = true.
Proof.
  intros H. unfold _do_autosave.
  destruct (running s) eqn:Hrun; [|done].
  destruct (current_activity_id s) as [a|] eqn:Ha; [|done].
  cbn [negb orb is_some].
  unfold _rollover_midnight_if_needed. rewrite Hrun, Ha.
  destruct (date_of (_last_autosave_dt s) =? date_of now).
  - rewrite Ha. apply update_row_consistent.
    by destruct (0 <? total_seconds now (_last_autosave_dt s)).
  - rewrite secs_to_midnight_pos.
    set (M := combine_min (date_of (_last_autosave_dt s) + 1)).
    set (s2 := set_run true _ _ _).
    assert (Ha2 : current_activity_id s2 = Some a).
    { unfold s2. cbn [current_activity_id set_run].
      rewrite finalize_activity. exact Ha. }
    assert (Hc : consistent (_create_new_session_row M s2) = true)
      by by apply (create_row_consistent _ _ a).
    cbv beta iota zeta. rewrite create_row_activity, Ha2.
    apply update_row_consistent.
    by destruct (0 <? total_seconds now M).
Qed.

Lemma stop_idle now end_dt s :
  consistent s = true ->
  current_session_id (stop now end_dt s) = None
  /\ running (stop now end_dt s) = false.
Proof.
  intros H. unfold stop.
  by apply save_previous_idle, do_autosave_consistent.
Qed.

Lemma step_consistent s (o : Op) :
  consistent s = true -> consistent (step s o) = true.
Proof.
  intros H. destruct o as [now|sel custom now|hk now|now|now]; simpl.
  - unfold start. destruct (running s); simpl; [done|].
    apply start_activity_consistent.
  - unfold _switch_activity.
    destruct (String.eqb _ "Custom"); [|apply start_activity_consistent].
    destruct custom as [c|]; [|done].
    destruct (truthy c); [|done].
    destruct (_get_or_create_activity c _).
    apply start_activity_consistent.
  - unfold _on_hotkey. destruct (hotkey_mapping hk); [|done].
    apply start_activity_consistent.
  - apply consistent_spec. destruct (stop_idle now now s H) as [-> ->].
    done.
  - by apply do_autosave_consistent.
Qed.

Lemma run_consistent (ops : list Op) s :
  consistent s = true -> consistent (run s ops) = true.
Proof.
  revert s. induction ops as [|o ops IH]; intros s H; [done|].
  simpl. apply IH. by apply step_consistent.
Qed.

Lemma init_consistent (d : DB) (t0 end_dt now : datetime) :
  consistent (StopwatchApp_init d t0 end_dt now) = true.
Proof. apply start_activity_consistent. Qed.

(** The live rows of a consistent tracker. *)
Lemma live_rows_spec s :
  consistent s = true ->
  match current_session_id s with
  | Some k =>
      exists r, live_rows s = {[k := r]}
                /\ current_activity_id s = Some (activity_id r)
                /\ running s = true
  | None => live_rows s = ∅ /\ running s = false
  end.
Proof.
  intros H%consistent_spec. unfold live_rows.
  destruct (current_session_id s) as [k|].
  - destruct H as (Hrun & _ & r & Hr & Ha). exists r.
    split; [|done]. apply map_eq. intros i.
    destruct (decide (i = k)) as [->|Hne].
    + rewrite lookup_singleton_eq.
      by apply map_lookup_filter_Some.
    + rewrite lookup_singleton_ne by done.
      apply map_lookup_filter_None. right. intros x _ [=]. done.
  - split; [|done]. apply map_eq. intros i. rewrite lookup_empty.
    apply map_lookup_filter_None. right. intros x _ [=].
Qed.

End Invariant.

(** C3 - At most one live session.  After every finite sequence of
    start / switch / hotkey / stop / tick events applied to the launched
    application, whatever the database file held, either no session row
    is live (and the tracker is Idle) or exactly one is (and the tracker
    is Running), and the activity_id of every live row is
    [current_activity_id]. *)
Theorem at_most_one_live_session (d : DB) (t0 : datetime) (ops : list Op) :
  let s := run (StopwatchApp_init d t0 t0 t0) ops in
  ((size (live_rows s) = 0%nat /\ running s = false)
   \/ (size (live_rows s) = 1%nat /\ running s = true))
  /\ forall k r,
       live_rows s !! k = Some r ->
       current_activity_id s = Some (activity_id r).
Proof.
  intros s.
  assert (H : consistent s = true)
    by apply run_consistent, init_consistent.
  apply live_rows_spec in H.
  destruct (current_session_id s) as [k|].
  - destruct H as (r & -> & Ha & Hrun). split.
    + right. by rewrite map_size_singleton.
    + intros k' r' [_ <-]%lookup_singleton_Some. done.
  - destruct H as [-> Hrun]. split.
    + left. by rewrite map_size_empty.
    + intros k' r'. by rewrite lookup_empty.
Qed.

(** ** Conservation of accounted time *)

Section Conservation.

Implicit Types (s : App) (now t : datetime) (a d : Z) (o : Op).

Lemma save_previous_daily_totals end_dt s :
  daily_totals (db (_save_previous_activity_if_running end_dt s))
  = daily_totals (db s).
Proof.
  unfold _save_previous_activity_if_running, _finalize_current_session_row.
  destruct (_ && _); [|done].
  by destruct (update_row_frame end_dt s) as [f ->].
Qed.

(** What a reconciliation of a tracked session credits in all, whether
    or not it splits the day. *)
Lemma autosave_total_credit s now a :
  running s = true -> current_activity_id s = Some a ->
  _last_autosave_dt s <= now ->
  total_credit (daily_totals (db (_do_autosave now s)))
  = total_credit (daily_totals (db s)) + (now - _last_autosave_dt s).
Proof.
  intros Hrun Ha Hle.
  destruct (do_autosave_tracking s now a Hrun Ha) as (_ & _ & _ & -> & _).
  pose proof (date_of_bounds now) as Hnow.
  pose proof (next_midnight_gt (_last_autosave_dt s)) as HM.
  destruct (date_of (_last_autosave_dt s) =? date_of now) eqn:Hd.
  - destruct (0 <? now - _last_autosave_dt s) eqn:Hpos.
    + by rewrite total_credit_upsert.
    + lia.
  - apply Z.eqb_neq in Hd.
    assert (Hlt : date_of (_last_autosave_dt s) < date_of now).
    { pose proof (date_of_mono _ _ Hle). lia. }
    assert (HMle : next_midnight (_last_autosave_dt s) <= now).
    { unfold next_midnight, combine_min, SECONDS_PER_DAY in *. lia. }
    cbv zeta.
    destruct (0 <? now - next_midnight (_last_autosave_dt s)) eqn:Hpos;
      rewrite ?total_credit_upsert; lia.
Qed.

(** Where it credits them, when at most one midnight was crossed. *)
Lemma autosave_daily_credit s now a :
  running s = true -> current_activity_id s = Some a ->
  _last_autosave_dt s <= now ->
  date_of now <= date_of (_last_autosave_dt s) + 1 ->
  forall d a',
    daily_total (daily_totals (db (_do_autosave now s))) d a'
    = daily_total (daily_totals (db s)) d a'
      + (if decide (a' = a) then overlap d (_last_autosave_dt s) now
         else 0).
Proof.
  intros Hrun Ha Hle Hone d a'.
  destruct (do_autosave_tracking s now a Hrun Ha) as (_ & _ & _ & -> & _).
  pose proof (date_of_mono _ _ Hle) as Hmono.
  destruct (date_of (_last_autosave_dt s) =? date_of now) eqn:Hd.
  - apply Z.eqb_eq in Hd. rewrite (overlap_same_day d _ _ Hle Hd).
    destruct (0 <? now - _last_autosave_dt s) eqn:Hpos.
    + rewrite daily_total_upsert.
      repeat case_decide; simplify_eq; lia.
    + repeat case_decide; lia.
  - apply Z.eqb_neq in Hd.
    assert (Hnext : date_of now = date_of (_last_autosave_dt s) + 1) by lia.
    rewrite (overlap_next_day d _ _ Hnext).
    pose proof (date_of_bounds now) as Hnow.
    assert (HMle : next_midnight (_last_autosave_dt s) <= now).
    { unfold next_midnight, combine_min, SECONDS_PER_DAY in *. lia. }
    cbv zeta.
    destruct (0 <? now - next_midnight (_last_autosave_dt s)) eqn:Hpos;
      rewrite ?daily_total_upsert;
      repeat case_decide; simplify_eq; lia.
Qed.

(** Where it leaves the checkpoint, unless [now] is exactly the midnight
    that ends the checkpoint's day. *)
Lemma autosave_checkpoint s now a :
  running s = true -> current_activity_id s = Some a ->
  _last_autosave_dt s <= now ->
  now <> next_midnight (_last_autosave_dt s) ->
  _last_autosave_dt (_do_autosave now s) = now.
Proof.
  intros Hrun Ha Hle Hne.
  destruct (do_autosave_tracking s now a Hrun Ha) as (_ & _ & _ & _ & ->).
  pose proof (date_of_bounds now) as Hnow.
  pose proof (date_of_mono _ _ Hle) as Hmono.
  destruct (date_of (_last_autosave_dt s) =? date_of now) eqn:Hd.
  - destruct (0 <? now - _last_autosave_dt s) eqn:Hpos; lia.
  - apply Z.eqb_neq in Hd.
    assert (HMle : next_midnight (_last_autosave_dt s) <= now).
    { unfold next_midnight, combine_min, SECONDS_PER_DAY in *. lia. }
    destruct (0 <? now - next_midnight (_last_autosave_dt s)) eqn:Hpos; lia.
Qed.

(** The events that open a session in an Idle tracker credit nothing and,
    if they do open one, put the checkpoint at their instant. *)
Lemma start_activity_effect name end_dt now s :
  let s' := _start_activity name end_dt now s in
  daily_totals (db s') = daily_totals (db s)
  /\ running s' = true /\ _last_autosave_dt s' = now.
Proof.
  split; [apply start_activity_daily_totals|].
  destruct (start_activity_checkpoint name end_dt now s) as (? & _ & ?).
  done.
Qed.

Lemma step_open_effect s o :
  running s = false ->
  match o with OpStart _ | OpSwitch _ _ _ | OpHotkey _ _ => True
          | _ => False end ->
  let s' := step s o in
  daily_totals (db s') = daily_totals (db s)
  /\ (running s' = false
      \/ (running s' = true /\ _last_autosave_dt s' = op_time o)).
Proof.
  intros Hrun Ho. destruct o as [now|sel custom now|hk now|now|now];
    try done; cbn [step op_time].
  - unfold start. rewrite Hrun. cbn [negb].
    destruct (start_activity_effect
                (if truthy (activity_var s) then activity_var s
                 else _first_non_custom_activity (db s)) now now s)
      as (-> & ? & ?). eauto.
  - unfold _switch_activity.
    destruct (String.eqb _ "Custom").
    + destruct custom as [c|]; [destruct (truthy c)|]; try by eauto.
      unfold _get_or_create_activity. cbv zeta.
      match goal with
      | |- context [_start_activity c now now ?x] =>
          destruct (start_activity_effect c now now x) as (-> & ? & ?)
      end.
      eauto.
    + match goal with
      | |- context [_start_activity ?n now now ?x] =>
          destruct (start_activity_effect n now now x) as (-> & ? & ?)
      end.
      eauto.
  - unfold _on_hotkey. destruct (hotkey_mapping hk) as [name|]; [|by eauto].
    match goal with
    | |- context [_start_activity name now now ?x] =>
        destruct (start_activity_effect name now now x) as (-> & ? & ?)
    end.
    eauto.
Qed.

Lemma pending_idle now s : running s = false -> pending now s = 0.
Proof. unfold pending. by intros ->. Qed.

Lemma pending_on_idle d a now s :
  running s = false -> pending_on d a now s = 0.
Proof. unfold pending_on, running_on. by intros ->. Qed.

Lemma pending_at_checkpoint now s :
  _last_autosave_dt s = now -> pending now s = 0.
Proof. unfold pending. intros ->. destruct (running s); lia. Qed.

Lemma pending_on_at_checkpoint d a now s :
  _last_autosave_dt s = now -> pending_on d a now s = 0.
Proof.
  unfold pending_on. intros ->.
  destruct (running_on a s); [apply overlap_empty | done].
Qed.

Lemma pending_on_running d a a0 now s :
  running s = true -> current_activity_id s = Some a0 ->
  pending_on d a now s
  = if decide (a = a0) then overlap d (_last_autosave_dt s) now else 0.
Proof.
  unfold pending_on, running_on. intros -> ->. cbn [andb].
  case_bool_decide; case_decide; simplify_eq; done.
Qed.

Lemma stop_when_idle now end_dt s :
  running s = false -> stop now end_dt s = set_last_autosave now s.
Proof.
  intros Hrun. unfold stop.
  rewrite do_autosave_idle by (unfold tracking; by rewrite Hrun).
  unfold _save_previous_activity_if_running.
  cbn [running set_last_autosave]. by rewrite Hrun.
Qed.

(** One admissible event, taken at its own instant, moves time from
    "pending" to "credited" and never creates or loses any. *)
Lemma step_conserves s t o :
  consistent s = true ->
  (running s = true -> _last_autosave_dt s <= t) ->
  op_admissible s t o = true ->
  let now := op_time o in
  let s' := step s o in
  total_credit (daily_totals (db s')) + pending now s'
  = total_credit (daily_totals (db s)) + pending now s
  /\ (running s' = true -> _last_autosave_dt s' <= now)
  /\ (op_one_midnight s o = true ->
      forall d a,
        daily_total (daily_totals (db s')) d a + pending_on d a now s'
        = daily_total (daily_totals (db s)) d a + pending_on d a now s).
Proof.
  intros Hc Hck Hadm now s'.
  unfold op_admissible in Hadm. apply andb_true_iff in Hadm as [Ht Hop].
  apply Z.leb_le in Ht. fold now in Ht.
  destruct (running s) eqn:Hrun.
  - (* Running *)
    specialize (Hck eq_refl).
    assert (Hle : _last_autosave_dt s <= now) by lia.
    pose proof (consistent_tracking s Hc) as Htr. rewrite Hrun in Htr.
    destruct (tracking_inv s Htr) as (_ & a0 & Ha).
    destruct o as [n|sel custom n|hk n|n|n]; subst now s';
      cbn [op_time step] in *; try discriminate Hop.
    + (* Start button: guarded *)
      unfold start. rewrite Hrun. cbn [negb].
      split; [done|]. split; [by intros _|done].
    + (* Stop *)
      destruct (stop_idle n n s Hc) as [_ Hidle].
      assert (Htot : daily_totals (db (stop n n s))
                     = daily_totals (db (_do_autosave n s)))
        by apply save_previous_daily_totals.
      rewrite Htot. split; [|split].
      * rewrite (autosave_total_credit s n a0 Hrun Ha Hle).
        rewrite (pending_idle n _ Hidle). unfold pending.
        rewrite Hrun. lia.
      * intros Hr. congruence.
      * intros Hone d a. unfold op_one_midnight in Hone.
        rewrite Hrun in Hone. cbn [negb orb] in Hone.
        apply Z.leb_le in Hone.
        rewrite (autosave_daily_credit s n a0 Hrun Ha Hle Hone).
        rewrite (pending_on_idle d a n _ Hidle).
        rewrite (pending_on_running d a a0 n s Hrun Ha). lia.
    + (* Tick *)
      cbn [negb orb] in Hop. apply negb_true_iff, Z.eqb_neq in Hop.
      pose proof (autosave_checkpoint s n a0 Hrun Ha Hle Hop) as Hlast.
      split; [|split].
      * rewrite (autosave_total_credit s n a0 Hrun Ha Hle).
        rewrite (pending_at_checkpoint n _ Hlast). unfold pending.
        rewrite Hrun. lia.
      * intros _. lia.
      * intros Hone d a. unfold op_one_midnight in Hone.
        rewrite Hrun in Hone. cbn [negb orb] in Hone.
        apply Z.leb_le in Hone.
        rewrite (autosave_daily_credit s n a0 Hrun Ha Hle Hone).
        rewrite (pending_on_at_checkpoint d a n _ Hlast).
        rewrite (pending_on_running d a a0 n s Hrun Ha). lia.
  - (* Idle *)
    rewrite (pending_idle now s Hrun).
    assert (Hidle_case :
      daily_totals (db s') = daily_totals (db s)
      /\ (running s' = false
          \/ (running s' = true /\ _last_autosave_dt s' = now))).
    { destruct o as [n|sel custom n|hk n|n|n].
      - by apply (step_open_effect s (OpStart n)).
      - by apply (step_open_effect s (OpSwitch sel custom n)).
      - by apply (step_open_effect s (OpHotkey hk n)).
      - unfold s'. cbn [step]. rewrite (stop_when_idle n n s Hrun).
        split; [done|]. by left.
      - unfold s'. cbn [step].
        rewrite do_autosave_idle by (unfold tracking; by rewrite Hrun).
        split; [done|]. by left. }
    destruct Hidle_case as [Htot Hs']. rewrite Htot.
    split; [|split].
    + destruct Hs' as [Hi|[_ Hl]].
      * by rewrite (pending_idle now s' Hi).
      * by rewrite (pending_at_checkpoint now s' Hl).
    + intros Hr. destruct Hs' as [Hi|[_ Hl]]; [congruence|lia].
    + intros _ d a. rewrite (pending_on_idle d a now s Hrun).
      destruct Hs' as [Hi|[_ Hl]].
      * by rewrite (pending_on_idle d a now s' Hi).
      * by rewrite (pending_on_at_checkpoint d a now s' Hl).
Qed.

End Conservation.

(** C1, as stated, fails: the live session's recorded duration is already
    part of what the ticks credited.  "Work" is Running from 12:00:00 and
    one tick arrives at 12:01:00: the tracker was Running for 60 seconds,
    the tick credited 60 seconds and set the live row's duration_sec to
    60, so "credited plus live duration" is 120. *)
Lemma credit_plus_live_duration_double_counts :
  let t := mk_datetime 2024 1 1 12 0 0 in
  let s := working_since t in
  let ops := [OpTick (t + 60)] in
  let s' := run s ops in
  running_time s t ops = 60
  /\ total_credit (daily_totals (db s'))
     - total_credit (daily_totals (db s)) = 60
  /\ live_duration s' = 60
  /\ total_credit (daily_totals (db s'))
     - total_credit (daily_totals (db s)) + live_duration s'
     <> running_time s t ops.
Proof. vm_compute. repeat split; discriminate. Qed.

(** C1 (amended) - Conservation.  Take any consistent tracker state at an
    instant [t] not before its checkpoint, and any finite sequence of
    events whose clock readings never go back, in which activities are
    picked only while Idle (the Start button is always allowed: it is
    ignored while Running) and no tick reads exactly the midnight that
    ends the checkpoint's day.  Then the seconds credited to
    [daily_totals] over the sequence, plus the Running time not yet
    credited at its end (now minus checkpoint while Running, zero while
    Idle), equal the uncredited time at the beginning plus the wall-clock
    time the tracker was Running.  If moreover every reconciliation
    crosses at most one midnight, the same holds for every calendar date
    and activity separately, each second being attributed to the date on
    which it occurred. *)
Theorem conservation_of_running_time (s : App) (t : datetime)
    (ops : list Op) :
  consistent s = true ->
  (running s = true -> _last_autosave_dt s <= t) ->
  admissible s t ops = true ->
  let s' := run s ops in
  let t' := end_time t ops in
  total_credit (daily_totals (db s')) + pending t' s'
  = total_credit (daily_totals (db s)) + pending t s
    + running_time s t ops
  /\ (one_midnight s ops = true ->
      forall d a,
        daily_total (daily_totals (db s')) d a + pending_on d a t' s'
        = daily_total (daily_totals (db s)) d a + pending_on d a t s
          + running_time_on d a s t ops).
Proof.
  revert s t. induction ops as [|o ops IH]; intros s t Hc Hck Hadm.
  - cbn. split; [lia|]. intros _ d a. lia.
  - cbn [admissible] in Hadm. apply andb_true_iff in Hadm as [Ho Hrest].
    destruct (step_conserves s t o Hc Hck Ho) as (E1 & Hck' & E3).
    pose proof (step_consistent s o Hc) as Hc'.
    destruct (IH (step s o) (op_time o) Hc' Hck' Hrest) as [I1 I2].
    assert (Ht : t <= op_time o).
    { unfold op_admissible in Ho. apply andb_true_iff in Ho as [Ho _].
      by apply Z.leb_le. }
    change (run s (o :: ops)) with (run (step s o) ops).
    change (end_time t (o :: ops)) with (end_time (op_time o) ops).
    cbn [running_time running_time_on one_midnight]. cbv zeta in *.
    split.
    + rewrite I1, E1. unfold pending. destruct (running s); lia.
    + intros [Hone Hones]%andb_true_iff d a.
      rewrite (I2 Hones d a), (E3 Hone d a).
      unfold pending_on, running_on.
      destruct (running s) eqn:Hrun; cbn [andb]; [|lia].
      specialize (Hck eq_refl). case_bool_decide; [|lia].
      rewrite (overlap_split d _ t (op_time o)) by lia. lia.
Qed.

Lemma conservation_of_running_time_witness :
  let t := mk_datetime 2024 1 1 23 50 0 in
  let s := working_since t in
  let ops := [OpTick (t + 300); OpStop (t + 900); OpStart (t + 1000);
              OpTick (t + 1100)] in
  let s' := run s ops in
  let t' := end_time t ops in
  admissible s t ops = true
  /\ one_midnight s ops = true
  /\ running_time s t ops = 1000
  /\ total_credit (daily_totals (db s')) + pending t' s'
     = total_credit (daily_totals (db s)) + pending t s
       + running_time s t ops
  /\ forall d a,
       daily_total (daily_totals (db s')) d a + pending_on d a t' s'
       = daily_total (daily_totals (db s)) d a + pending_on d a t s
         + running_time_on d a s t ops.
Proof.
  intros t s ops s' t'.
  assert (Hc : consistent s = true) by (vm_compute; reflexivity).
  assert (Hck : running s = true -> _last_autosave_dt s <= t)
    by (intros _; apply Z.leb_le; vm_compute; reflexivity).
  assert (Hadm : admissible s t ops = true) by (vm_compute; reflexivity).
  assert (Hone : one_midnight s ops = true) by (vm_compute; reflexivity).
  destruct (conservation_of_running_time s t ops Hc Hck Hadm) as [H1 H2].
  split; [exact Hadm|]. split; [exact Hone|].
  split; [vm_compute; reflexivity|].
  split; [exact H1 | exact (H2 Hone)].
Defined.


(** * Further properties of the code *)

(** ** The registry table *)

Section RegistryTable.

Implicit Types (acts : list (Z * string)) (name : string).

Lemma find_app_l {A} (p : A -> bool) (l l' : list A) x :
  find p l = Some x -> find p (l ++ l') = Some x.
Proof.
  induction l as [|y l IH]; cbn [find app]; [done|].
  destruct (p y); [done | exact IH].
Qed.

Lemma max_id_bound (ids : list Z) x : x ∈ ids -> x <= max_id ids.
Proof.
  unfold max_id. induction ids as [|y ids IH]; cbn [foldr].
  - by intros ?%elem_of_nil.
  - intros [->|Hx]%elem_of_cons; [lia|]. specialize (IH Hx). lia.
Qed.

Lemma next_activity_id_fresh acts :
  next_activity_id acts ∉ (fst <$> acts).
Proof.
  unfold next_activity_id. intros H%max_id_bound. lia.
Qed.

Lemma existsb_false_fold name acts :
  existsb (fun r => nocase_eqb (snd r) name) acts = false ->
  nocase_fold name ∉ ((fun r => nocase_fold (snd r)) <$> acts).
Proof.
  induction acts as [|r acts IH]; cbn [existsb fmap list_fmap].
  - intros _ ?%elem_of_nil. done.
  - intros [Hr Hrest]%orb_false_iff [Heq|Hin]%elem_of_cons.
    + unfold nocase_eqb in Hr. rewrite Heq, String.eqb_refl in Hr. done.
    + by apply IH.
Qed.

Lemma insert_or_ignore_registry_ok name acts :
  registry_ok acts -> registry_ok (insert_or_ignore_activity name acts).
Proof.
  intros [Hids Hnames]. unfold insert_or_ignore_activity.
  destruct (existsb _ acts) eqn:Hex; [done|].
  split; rewrite fmap_app; apply NoDup_app; (split; [done|]).
  - split; [|apply NoDup_singleton].
    intros x Hx ->%list_elem_of_singleton.
    by apply (next_activity_id_fresh acts).
  - split; [|apply NoDup_singleton].
    intros x Hx ->%list_elem_of_singleton.
    by apply (existsb_false_fold name acts).
Qed.

Lemma present_insert_mono name name' acts :
  existsb (fun r => nocase_eqb (snd r) name) acts = true ->
  existsb (fun r => nocase_eqb (snd r) name)
    (insert_or_ignore_activity name' acts) = true.
Proof.
  intros H. unfold insert_or_ignore_activity.
  destruct (existsb (fun r => nocase_eqb (snd r) name') acts); [done|].
  rewrite existsb_app, H. done.
Qed.

Lemma foldl_insert_present (names : list string) acts :
  Forall (fun n => existsb (fun r => nocase_eqb (snd r) n) acts = true)
    names ->
  foldl (fun acc n => insert_or_ignore_activity n acc) acts names = acts.
Proof.
  induction 1 as [|n names Hn _ IH]; cbn [foldl]; [done|].
  by rewrite (insert_or_ignore_present n acts Hn).
Qed.

Lemma foldl_insert_mono (names : list string) name acts :
  existsb (fun r => nocase_eqb (snd r) name) acts = true ->
  existsb (fun r => nocase_eqb (snd r) name)
    (foldl (fun acc n => insert_or_ignore_activity n acc) acts names) = true.
Proof.
  revert acts. induction names as [|n names IH]; intros acts H; [done|].
  cbn [foldl]. by apply IH, present_insert_mono.
Qed.

Lemma foldl_insert_all_present (names : list string) acts :
  Forall
    (fun n =>
       existsb (fun r => nocase_eqb (snd r) n)
         (foldl (fun acc n => insert_or_ignore_activity n acc) acts names)
       = true)
    names.
Proof.
  revert acts. induction names as [|n names IH]; intros acts; [done|].
  cbn [foldl]. constructor; [|apply IH].
  apply foldl_insert_mono, existsb_insert_or_ignore.
Qed.

Lemma seed_all_present (d : DB) :
  Forall
    (fun n =>
       existsb (fun r => nocase_eqb (snd r) n)
         (activities (_seed_default_activities d)) = true)
    (DEFAULT_ACTIVITIES ++ ["Custom"]).
Proof.
  unfold _seed_default_activities. cbn [activities set_activities].
  apply Forall_app. split.
  - eapply Forall_impl;
      [apply (foldl_insert_all_present DEFAULT_ACTIVITIES (activities d))|].
    intros n Hn. cbv beta in *. by apply present_insert_mono.
  - constructor; [|done]. apply existsb_insert_or_ignore.
Qed.

Lemma elem_of_insert_sorted (n x : string) (l : list string) :
  n ∈ insert_sorted x l <-> n = x \/ n ∈ l.
Proof.
  induction l as [|y l IH]; cbn [insert_sorted].
  - by rewrite elem_of_cons.
  - destruct (nocase_leb x y).
    + by rewrite elem_of_cons.
    + rewrite !elem_of_cons, IH. tauto.
Qed.

Lemma elem_of_select_names_ordered (n : string) acts :
  n ∈ select_names_ordered acts <-> n ∈ (snd <$> acts).
Proof.
  unfold select_names_ordered.
  induction (snd <$> acts) as [|x l IH]; cbn [foldr]; [done|].
  rewrite elem_of_insert_sorted, elem_of_cons, IH. done.
Qed.

End RegistryTable.

(** X1 - Activity ids are stable: looking up or creating one name never
    changes the id under which any name already in the table is found. *)
Theorem get_or_create_keeps_ids (name name' : string) (d : DB) (i : Z) :
  select_activity_id name' (activities d) = Some i ->
  select_activity_id name'
    (activities (fst (_get_or_create_activity name d))) = Some i.
Proof.
  unfold _get_or_create_activity, select_activity_id.
  cbn [fst activities set_activities]. intros H.
  unfold insert_or_ignore_activity. destruct (existsb _ _); [done|].
  destruct (find _ (activities d)) as [r|] eqn:Hf; [|done].
  by rewrite (find_app_l _ _ _ r Hf).
Qed.

Lemma get_or_create_keeps_ids_witness :
  let d := _seed_default_activities empty_db in
  select_activity_id "study"
    (activities (fst (_get_or_create_activity "Reading" d))) = Some 2.
Proof.
  apply (get_or_create_keeps_ids "Reading" "study"
           (_seed_default_activities empty_db) 2).
  reflexivity.
Defined.

(** X3 - Seeding is idempotent: running [_seed_default_activities] on a
    database that was already seeded (every later launch of the
    application) changes nothing. *)
Theorem seed_default_activities_idempotent (d : DB) :
  _seed_default_activities (_seed_default_activities d)
  = _seed_default_activities d.
Proof.
  pose proof (seed_all_present d) as Hall.
  apply Forall_app in Hall as [Hdef Hcustom].
  apply Forall_cons in Hcustom as [Hcustom _].
  unfold _seed_default_activities at 1.
  destruct (_seed_default_activities d) as [acts ss dt].
  cbn [activities] in *. unfold set_activities.
  cbn [activities sessions daily_totals].
  rewrite (foldl_insert_present DEFAULT_ACTIVITIES acts Hdef).
  by rewrite (insert_or_ignore_present "Custom" acts Hcustom).
Qed.

(** X4 - After seeding, each of the five default activities and the
    "Custom" entry resolves to an id, whatever the database held. *)
Theorem seeded_names_resolve (d : DB) :
  Forall
    (fun n =>
       is_Some
         (select_activity_id n (activities (_seed_default_activities d))))
    (DEFAULT_ACTIVITIES ++ ["Custom"]).
Proof.
  eapply Forall_impl; [apply seed_all_present|].
  intros n Hn. unfold select_activity_id.
  destruct (find_existsb _ _ Hn) as [r ->]. by eexists.
Qed.

Section Picker.

Lemma filtered_names_spec (d : DB) (n : string) :
  n ∈ List.filter (fun n => negb (String.eqb n "Custom"))
        (select_names_ordered (activities d))
  <-> n <> "Custom" /\ n ∈ (snd <$> activities d).
Proof.
  rewrite list_elem_of_In, filter_In, <- list_elem_of_In.
  rewrite elem_of_select_names_ordered, negb_true_iff, String.eqb_neq.
  tauto.
Qed.

Lemma first_non_custom_ne_custom (d : DB) :
  _first_non_custom_activity d <> "Custom".
Proof.
  unfold _first_non_custom_activity.
  destruct (find _ (_load_activities d)) as [n|] eqn:Hf; cbn [default];
    [|done].
  apply find_some in Hf as [_ Hn].
  by apply negb_true_iff, String.eqb_neq in Hn.
Qed.

End Picker.

(** X5 - The picker's list: [_load_activities] returns every name of the
    table other than "Custom", followed by exactly one "Custom" in the
    last place, whether or not the table holds that entry. *)
Theorem load_activities_custom_last (d : DB) :
  exists l,
    _load_activities d = l ++ ["Custom"]
    /\ ("Custom" ∉ l)
    /\ forall n, n ∈ l <-> n <> "Custom" /\ n ∈ (snd <$> activities d).
Proof.
  unfold _load_activities. eexists. split; [reflexivity|].
  split; [|apply filtered_names_spec].
  intros [Hne _]%filtered_names_spec. done.
Qed.

(** X6 - The default activity is never the "Custom" entry:
    [_first_non_custom_activity] returns a name of the table other than
    "Custom", or "Work" when there is none. *)
Theorem first_non_custom_is_not_custom (d : DB) :
  _first_non_custom_activity d <> "Custom"
  /\ (_first_non_custom_activity d ∈ (snd <$> activities d)
      \/ (_first_non_custom_activity d = "Work"
          /\ forall n, n ∈ (snd <$> activities d) -> n = "Custom")).
Proof.
  split; [apply first_non_custom_ne_custom|].
  unfold _first_non_custom_activity, _load_activities.
  destruct (find _ _) as [n|] eqn:Hf; cbn [default].
  - apply find_some in Hf as [Hin Hn].
    apply negb_true_iff, String.eqb_neq in Hn. left.
    apply list_elem_of_In, elem_of_app in Hin as [Hin|Hin].
    + by apply filtered_names_spec in Hin as [_ Hin].
    + apply list_elem_of_singleton in Hin. done.
  - right. split; [done|]. intros n Hn.
    destruct (decide (n = "Custom")) as [|Hne]; [done|].
    pose proof (find_none _ _ Hf n) as Hnone.
    rewrite negb_false_iff, String.eqb_eq in Hnone. apply Hnone.
    apply list_elem_of_In, elem_of_app. left.
    by apply filtered_names_spec.
Qed.


(** ** Hotkeys *)

(** X7 - A hotkey is the picker in disguise: for each of the five
    registered ids, [_on_hotkey] performs exactly the transition of
    [_switch_activity] with the mapped name selected (no dialog is ever
    involved); for every other id it leaves the state untouched. *)
Theorem on_hotkey_is_switch (hk_id : Z) (custom : option string)
    (end_dt now : datetime) (s : App) :
  match hotkey_mapping hk_id with
  | Some name =>
      _on_hotkey hk_id end_dt now s
      = _switch_activity custom end_dt now (set_activity_var name s)
  | None => _on_hotkey hk_id end_dt now s = s
  end.
Proof.
  unfold _on_hotkey, hotkey_mapping.
  repeat (destruct (hk_id =? _); [reflexivity|]). reflexivity.
Qed.

(** ** Duration display *)

(** X13 - [_fmt_short] shows whole minutes only: any number of seconds
    prints like the start of the minute it falls in. *)
Theorem fmt_short_drops_seconds (secs : Z) :
  _fmt_short secs = _fmt_short (60 * (secs / 60)).
Proof.
  unfold _fmt_short.
  assert (Hh : (60 * (secs / 60)) / 3600 = secs / 3600)
    by (Z.div_mod_to_equations; lia).
  assert (Hm : ((60 * (secs / 60)) mod 3600) / 60 = (secs mod 3600) / 60)
    by (Z.div_mod_to_equations; lia).
  by rewrite Hh, Hm.
Qed.

(** ** Today's totals *)

Section TodayTotals.

Lemma foldl_insert_lookup (l : list (string * Z)) (n : string) (v : Z) :
  NoDup (fst <$> l) ->
  foldl (fun m r => <[fst r := snd r]> m) (∅ : gmap string Z) l !! n
    = Some v
  <-> (n, v) ∈ l.
Proof.
  induction l as [|[k w] l IH] using rev_ind; intros Hnd.
  - cbn [foldl]. rewrite lookup_empty. split; [done|].
    by intros ?%elem_of_nil.
  - rewrite fmap_app in Hnd. apply NoDup_app in Hnd as (Hl & Hk & _).
    rewrite foldl_app. cbn [foldl fst snd].
    rewrite elem_of_app, list_elem_of_singleton.
    destruct (decide (k = n)) as [->|Hne].
    + rewrite lookup_insert_eq. split.
      * intros [= ->]. by right.
      * intros [Hin|[= ->]]; [|done]. exfalso.
        apply (Hk n); [|cbn; apply list_elem_of_singleton; done].
        apply list_elem_of_fmap. by exists (n, v).
    + rewrite lookup_insert_ne by done. rewrite (IH Hl).
      split; [by left|]. intros [?|[= ? ?]]; [done|congruence].
Qed.

Lemma today_rows_names_sublist (today : date) (d : DB) :
  fst <$> today_rows today d `sublist_of` snd <$> activities d.
Proof.
  unfold today_rows. induction (activities d) as [|[i n] acts IH].
  - done.
  - cbn [omap list_omap fmap list_fmap fst snd].
    destruct (daily_totals d !! (today, i)); cbn [fmap option_fmap option_map].
    + by apply sublist_skip.
    + by apply sublist_cons.
Qed.

Lemma registry_ok_names acts :
  registry_ok acts -> NoDup (snd <$> acts).
Proof.
  intros [_ H]. apply (NoDup_fmap_1 nocase_fold).
  by rewrite <- list_fmap_compose.
Qed.

End TodayTotals.

(** X14 - Today's totals are the join of the two tables: with the table
    constraints of [activities] in force, [_get_today_totals] maps a name
    to a number of seconds exactly when the activity stored under that
    name has a [daily_totals] row for today holding that number. *)
Theorem get_today_totals_lookup (today : date) (s : App)
    (name : string) (secs : Z) :
  registry_ok (activities (db s)) ->
  _get_today_totals today s !! name = Some secs
  <-> exists id,
        (id, name) ∈ activities (db s)
        /\ daily_totals (db s) !! (today, id) = Some secs.
Proof.
  intros Hok. unfold _get_today_totals.
  rewrite foldl_insert_lookup.
  - unfold today_rows. rewrite list_elem_of_omap. split.
    + intros ([i n] & Hin & Hrow). cbn [fst snd] in Hrow.
      destruct (daily_totals (db s) !! (today, i)) as [v|] eqn:Hv;
        [|done].
      injection Hrow as <- <-. eauto.
    + intros (i & Hin & Hv). exists (i, name). split; [done|].
      cbn [fst snd]. by rewrite Hv.
  - eapply sublist_NoDup; [|apply today_rows_names_sublist].
    by apply registry_ok_names.
Qed.

Lemma get_today_totals_lookup_witness :
  let s := run (working_since (mk_datetime 2024 1 1 12 0 0))
             [OpTick (mk_datetime 2024 1 1 12 1 0)] in
  _get_today_totals (ymd2ord 2024 1 1) s !! "Work" = Some 60
  <-> exists id,
        (id, "Work") ∈ activities (db s)
        /\ daily_totals (db s) !! (ymd2ord 2024 1 1, id) = Some 60.
Proof.
  apply (get_today_totals_lookup (ymd2ord 2024 1 1)
           (run (working_since (mk_datetime 2024 1 1 12 0 0))
              [OpTick (mk_datetime 2024 1 1 12 1 0)]) "Work" 60).
  split; (eapply bool_decide_unpack; vm_compute; exact I).
Defined.


(** ** How the events are built from the primitive updates *)

Section AutosaveEquations.

Implicit Types (s : App) (now : datetime) (a : Z).

(** A tick of a tracked session on the checkpoint's date. *)
Lemma do_autosave_same_day_eq s now a :
  running s = true -> current_activity_id s = Some a ->
  date_of (_last_autosave_dt s) = date_of now ->
  _do_autosave now s =
    _update_current_session_row now
      (if 0 <? total_seconds now (_last_autosave_dt s)
       then set_last_autosave now
              (_add_to_daily_total (date_of now) a
                 (total_seconds now (_last_autosave_dt s)) s)
       else s).
Proof.
  intros Hrun Ha Hd. unfold _do_autosave, _rollover_midnight_if_needed.
  rewrite Hrun, Ha. cbn [negb orb is_some].
  rewrite (proj2 (Z.eqb_eq _ _) Hd). by rewrite Ha.
Qed.

Lemma rolled_over_activity a s :
  current_activity_id s = Some a ->
  current_activity_id (rolled_over a s) = Some a.
Proof.
  intros Ha. unfold rolled_over.
  rewrite create_row_activity. cbn [current_activity_id set_run].
  by rewrite finalize_activity.
Qed.

(** A tick of a tracked session on another date than the checkpoint's. *)
Lemma do_autosave_date_change_eq s now a :
  running s = true -> current_activity_id s = Some a ->
  date_of (_last_autosave_dt s) <> date_of now ->
  _do_autosave now s =
    _update_current_session_row now
      (if 0 <? total_seconds now (next_midnight (_last_autosave_dt s))
       then set_last_autosave now
              (_add_to_daily_total (date_of now) a
                 (total_seconds now (next_midnight (_last_autosave_dt s)))
                 (rolled_over a s))
       else rolled_over a s).
Proof.
  intros Hrun Ha Hd. unfold _do_autosave, _rollover_midnight_if_needed.
  rewrite Hrun, Ha. cbn [negb orb is_some].
  rewrite (proj2 (Z.eqb_neq _ _) Hd), secs_to_midnight_pos.
  cbv beta iota zeta.
  change (_create_new_session_row _ _) with (rolled_over a s).
  by rewrite (rolled_over_activity a s Ha).
Qed.

Lemma create_row_set_last now t s :
  _create_new_session_row now (set_last_autosave t s)
  = set_last_autosave t (_create_new_session_row now s).
Proof.
  unfold _create_new_session_row, insert_session.
  cbn [current_activity_id set_last_autosave].
  by destruct (current_activity_id s).
Qed.

End AutosaveEquations.

(** Every event is a composition of a handful of primitive updates, so a
    property kept by each of them is kept by every trace. *)
Section Frame.

Variable P : App -> Prop.

Hypothesis P_update :
  forall t s, P s -> P (_update_current_session_row t s).
Hypothesis P_clear :
  forall s, P s -> P (set_current_session_id None s).
Hypothesis P_idle :
  forall s, current_session_id s = None -> P s ->
            P (set_run false None None s).
Hypothesis P_open :
  forall t s a,
    P s -> current_activity_id s = Some a ->
    P (_create_new_session_row t
         (set_run true (Some (mktime t)) (Some t) s)).
Hypothesis P_credit :
  forall d a v s,
    0 < v -> current_activity_id s = Some a -> P s ->
    P (_add_to_daily_total d a v s).
Hypothesis P_checkpoint :
  forall t s, P s -> P (set_last_autosave t s).
Hypothesis P_var :
  forall v s, P s -> P (set_activity_var v s).
Hypothesis P_registry :
  forall name s,
    P s -> P (set_db (set_activities (insert_or_ignore_activity name)) s).
Hypothesis P_activity :
  forall name s,
    P s ->
    P (set_activity (select_activity_id name (activities (db s))) name s).

Implicit Types (s : App) (now end_dt : datetime).

Lemma frame_finalize end_dt s :
  P s -> P (_finalize_current_session_row end_dt s).
Proof. intros H. by apply P_clear, P_update. Qed.

Lemma frame_save_previous end_dt s :
  P s -> P (_save_previous_activity_if_running end_dt s).
Proof.
  intros H. unfold _save_previous_activity_if_running.
  destruct (_ && _); [|done].
  apply P_idle; [done|]. by apply frame_finalize.
Qed.

Lemma frame_rolled_over a s :
  P s -> current_activity_id s = Some a -> P (rolled_over a s).
Proof.
  intros H Ha. unfold rolled_over. apply (P_open _ _ a).
  - apply frame_finalize, P_credit; [|done|done].
    pose proof (next_midnight_gt (_last_autosave_dt s)).
    unfold total_seconds. lia.
  - by rewrite finalize_activity.
Qed.

Lemma frame_do_autosave now s : P s -> P (_do_autosave now s).
Proof.
  intros H. destruct (tracking s) eqn:Htr.
  - destruct (tracking_inv s Htr) as (Hrun & a & Ha).
    destruct (decide (date_of (_last_autosave_dt s) = date_of now))
      as [Hd|Hd].
    + rewrite (do_autosave_same_day_eq s now a Hrun Ha Hd).
      apply P_update.
      destruct (0 <? total_seconds now _) eqn:Hpos; [|done].
      apply P_checkpoint, P_credit; [lia|done|done].
    + rewrite (do_autosave_date_change_eq s now a Hrun Ha Hd).
      apply P_update. pose proof (frame_rolled_over a s H Ha) as Hr.
      destruct (0 <? total_seconds now _) eqn:Hpos; [|done].
      apply P_checkpoint, P_credit; [lia| |done].
      by apply rolled_over_activity.
  - rewrite (do_autosave_idle s now Htr). by apply P_checkpoint.
Qed.

Lemma frame_start_activity name end_dt now s :
  P s -> P (_start_activity name end_dt now s).
Proof.
  intros H. unfold _start_activity.
  pose proof (frame_save_previous end_dt s H) as H1.
  destruct (get_or_create_is_Some name
              (db (_save_previous_activity_if_running end_dt s)))
    as [a Ha].
  unfold _get_or_create_activity in *. cbn [snd] in Ha. cbv zeta.
  rewrite create_row_set_last. apply P_checkpoint.
  apply (P_open _ _ a); [|exact Ha].
  apply (P_activity name
           (set_db (set_activities (insert_or_ignore_activity name))
              (_save_previous_activity_if_running end_dt s))).
  by apply P_registry.
Qed.

Lemma frame_step s (o : Op) : P s -> P (step s o).
Proof.
  intros H. destruct o as [now|sel custom now|hk now|now|now];
    cbn [step].
  - unfold start. destruct (negb (running s)); [|done].
    by apply frame_start_activity.
  - unfold _switch_activity. cbn [activity_var set_activity_var].
    destruct (String.eqb sel "Custom").
    + destruct custom as [c|]; [destruct (truthy c)|];
        try by do 2 apply P_var.
      unfold _get_or_create_activity. cbv zeta.
      apply frame_start_activity, P_var.
      apply (P_registry c). by do 2 apply P_var.
    + by apply frame_start_activity, P_var.
  - unfold _on_hotkey. destruct (hotkey_mapping hk); [|done].
    by apply frame_start_activity, P_var.
  - unfold stop. by apply frame_save_previous, frame_do_autosave.
  - by apply frame_do_autosave.
Qed.

Lemma frame_run (ops : list Op) s : P s -> P (run s ops).
Proof.
  revert s. induction ops as [|o ops IH]; intros s H; [done|].
  cbn. by apply IH, frame_step.
Qed.

End Frame.


(** ** What no event ever does *)

Section NeverDoes.

Implicit Types (s : App) (k : Z) (r : Session).

Lemma update_row_daily_totals t s :
  daily_totals (db (_update_current_session_row t s))
  = daily_totals (db s).
Proof. by destruct (update_row_frame t s) as [f ->]. Qed.

Lemma create_row_daily_totals t s :
  daily_totals (db (_create_new_session_row t s)) = daily_totals (db s).
Proof.
  unfold _create_new_session_row, insert_session.
  by destruct (current_activity_id s).
Qed.

Lemma update_row_other_rows t s k r :
  sessions (db s) !! k = Some r -> current_session_id s <> Some k ->
  sessions (db (_update_current_session_row t s)) !! k = Some r
  /\ current_session_id (_update_current_session_row t s) <> Some k.
Proof.
  intros Hr Hk. unfold _update_current_session_row.
  destruct (running s); [|done].
  destruct (current_session_id s) as [k0|] eqn:Hk0; cbv iota; [|by rewrite Hk0].
  destruct (start_time s); cbv iota; [|by rewrite Hk0].
  cbn [db sessions set_db set_sessions current_session_id].
  rewrite Hk0. split; [|done].
  unfold update_session. rewrite lookup_alter_ne by congruence. done.
Qed.

Lemma create_row_other_rows t s k r :
  sessions (db s) !! k = Some r ->
  current_session_id s <> Some k ->
  sessions (db (_create_new_session_row t s)) !! k = Some r
  /\ current_session_id (_create_new_session_row t s) <> Some k.
Proof.
  intros Hr Hk. unfold _create_new_session_row, insert_session.
  destruct (current_activity_id s); [|done].
  cbn [db sessions set_db set_sessions current_session_id
       set_current_session_id].
  pose proof (max_session_id_bound (sessions (db s)) k
                (mk_is_Some _ _ Hr)) as Hle.
  split; [|intros [= ?]; lia].
  rewrite lookup_insert_ne by lia. done.
Qed.

(** The two lemmas on durations hold of any epoch conversion: they are
    proved with [mktime] kept folded. *)
#[local] Opaque mktime.

Lemma update_row_rows_ok t s :
  rows_ok (sessions (db s)) /\ live_start_ok s ->
  rows_ok (sessions (db (_update_current_session_row t s)))
  /\ live_start_ok (_update_current_session_row t s).
Proof.
  intros [Hrows Hlive]. unfold _update_current_session_row.
  destruct (running s) eqn:Hrun; [|done].
  destruct (current_session_id s) as [k|] eqn:Hk; cbv iota; [|done].
  destruct (start_time s) as [st|] eqn:Hst; cbv iota; [|done].
  split.
  - cbn [db sessions set_db set_sessions]. unfold update_session.
    intros i r'. rewrite lookup_alter. case_decide as Hi.
    + subst i. destruct (sessions (db s) !! k) as [r|] eqn:Hr; [|done].
      intros [= <-]. unfold duration_ok.
      cbn [duration_sec end_ts start_ts].
      by rewrite (Hlive k st r Hk Hrun Hst Hr).
    + apply Hrows.
  - intros k' st' r'.
    cbn [db sessions set_db set_sessions current_session_id running
         start_time].
    rewrite Hk, Hst. intros [= <-] _ [= <-]. unfold update_session.
    rewrite lookup_alter_eq.
    destruct (sessions (db s) !! k) as [r|] eqn:Hr; [|done].
    intros [= <-]. cbn [start_ts].
    exact (Hlive k st r Hk Hrun Hst Hr).
Qed.

Lemma open_rows_ok t s a :
  rows_ok (sessions (db s)) -> current_activity_id s = Some a ->
  let s' := _create_new_session_row t
              (set_run true (Some (mktime t)) (Some t) s) in
  rows_ok (sessions (db s')) /\ live_start_ok s'.
Proof.
  intros Hrows Ha. unfold _create_new_session_row, insert_session.
  app_simpl. rewrite Ha. app_simpl.
  split.
  - apply map_Forall_insert_2; [|done]. unfold duration_ok.
    cbn [duration_sec end_ts start_ts]. lia.
  - intros k st r. app_simpl.
    intros [= <-] _ [= <-]. rewrite lookup_insert_eq.
    intros [= <-]. done.
Qed.

#[local] Transparent mktime.

End NeverDoes.

(** X10 - Recorded durations are clamped differences of epoch times: if
    every session row of the database file satisfies
    duration_sec = max(0, mktime(end_ts) - mktime(start_ts)), then so does
    every row after the launch and any sequence of events, whatever the
    clock readings (a clock that goes back yields duration 0, never a
    negative one).  The duration is the difference of the two
    [time.mktime] values, not of the two timestamps as written in the
    row. *)
Theorem session_durations_stay_clamped (d : DB) (t0 : datetime)
    (ops : list Op) :
  rows_ok (sessions d) ->
  rows_ok (sessions (db (run (StopwatchApp_init d t0 t0 t0) ops))).
Proof.
  intros Hd.
  apply (frame_run
           (fun s => rows_ok (sessions (db s)) /\ live_start_ok s)).
  - intros t s. apply update_row_rows_ok.
  - intros s [Hrows _]. split; [done|]. by intros k st r [=].
  - intros s _ [Hrows _]. split; [done|]. by intros k st r _ [=].
  - intros t s a [Hrows _] Ha. by apply (open_rows_ok t s a).
  - by intros d' a v s _ _ H.
  - by intros t s H.
  - by intros v s H.
  - by intros name s H.
  - by intros name s H.
  - unfold StopwatchApp_init.
    apply (frame_start_activity
             (fun s => rows_ok (sessions (db s)) /\ live_start_ok s)).
    + intros t s. apply update_row_rows_ok.
    + intros s [Hrows _]. split; [done|]. by intros k st r [=].
    + intros s _ [Hrows _]. split; [done|]. by intros k st r _ [=].
    + intros t s a [Hrows _] Ha. by apply (open_rows_ok t s a).
    + by intros t s H.
    + by intros name s H.
    + by intros name s H.
    + split; [exact Hd|]. by intros k st r [=].
Qed.

Lemma session_durations_stay_clamped_witness :
  rows_ok
    (sessions
       (db (run (StopwatchApp_init (db (working_since 500)) 1000 1000 1000)
              [OpTick 1060; OpSwitch "Work" None 1030; OpStop 1010]))).
Proof.
  apply (session_durations_stay_clamped (db (working_since 500)) 1000).
  unfold rows_ok, duration_ok.
  eapply bool_decide_unpack. vm_compute. exact I.
Defined.

(** X11 - Daily totals never decrease: over any sequence of events, from
    any state and with any clock readings, the seconds on record for a
    (date, activity) pair can only grow. *)
Theorem daily_totals_never_decrease (s : App) (ops : list Op) (d a : Z) :
  daily_total (daily_totals (db s)) d a
  <= daily_total (daily_totals (db (run s ops))) d a.
Proof.
  apply (frame_run
           (fun s' => daily_total (daily_totals (db s)) d a
                      <= daily_total (daily_totals (db s')) d a)).
  - intros t s' H. by rewrite update_row_daily_totals.
  - by intros s' H.
  - by intros s' _ H.
  - intros t s' a' H _. by rewrite create_row_daily_totals.
  - intros d' a' v s' Hv _ H. unfold _add_to_daily_total.
    cbn [db daily_totals set_db set_daily_totals].
    rewrite daily_total_upsert. case_decide; lia.
  - by intros t s' H.
  - by intros v s' H.
  - by intros name s' H.
  - by intros name s' H.
  - lia.
Qed.

(** X18 - Closed session rows are final: a row of [sessions] that is not
    the live one is never modified, deleted or made live again by any
    sequence of events. *)
Theorem closed_rows_are_final (s : App) (ops : list Op) (k : Z)
    (r : Session) :
  sessions (db s) !! k = Some r ->
  current_session_id s <> Some k ->
  sessions (db (run s ops)) !! k = Some r
  /\ current_session_id (run s ops) <> Some k.
Proof.
  intros Hr Hk.
  apply (frame_run
           (fun s' => sessions (db s') !! k = Some r
                      /\ current_session_id s' <> Some k)).
  - intros t s' [H1 H2]. by apply update_row_other_rows.
  - by intros s' [H1 H2].
  - by intros s' _ [H1 H2].
  - intros t s' a [H1 H2] _. by apply create_row_other_rows.
  - by intros d' a v s' _ _ H.
  - by intros t s' H.
  - by intros v s' H.
  - by intros name s' H.
  - by intros name s' H.
  - done.
Qed.

Lemma closed_rows_are_final_witness :
  let s := working_since 1000 in
  let ops := [OpTick 1060; OpSwitch "Study" None 1090; OpStop 90000] in
  sessions (db (run s ops)) !! 1 = Some (mkSession 3 1000 1000 0)
  /\ current_session_id (run s ops) <> Some 1.
Proof.
  apply (closed_rows_are_final (working_since 1000)
           [OpTick 1060; OpSwitch "Study" None 1090; OpStop 90000] 1
           (mkSession 3 1000 1000 0)).
  - vm_compute. reflexivity.
  - vm_compute. discriminate.
Defined.


(** ** Opening and closing sessions *)

Section Sessions.

Implicit Types (s : App) (name : string) (end_dt now : datetime).


(** The row [_start_activity] inserts. *)
Lemma start_activity_rows name end_dt now s :
  let s1 := _save_previous_activity_if_running end_dt s in
  let s' := _start_activity name end_dt now s in
  let k' := max_session_id (sessions (db s1)) + 1 in
  exists a',
    current_activity_id s' = Some a'
    /\ select_activity_id name (activities (db s')) = Some a'
    /\ current_session_id s' = Some k'
    /\ sessions (db s') = <[k' := mkSession a' now now 0]> (sessions (db s1)).
Proof.
  cbv zeta. unfold _start_activity.
  destruct (get_or_create_is_Some name
              (db (_save_previous_activity_if_running end_dt s)))
    as [a' Ha'].
  unfold _get_or_create_activity in *. cbn [snd] in Ha'. cbv zeta.
  exists a'. unfold _create_new_session_row, insert_session. app_simpl.
  rewrite Ha'. app_simpl. done.
Qed.

(** The same steps on the epoch scale, for any epoch conversion: [mktime]
    is kept folded. *)
#[local] Opaque mktime.

Lemma start_activity_epoch name end_dt now s :
  start_time (_start_activity name end_dt now s) = Some (mktime now).
Proof.
  unfold _start_activity.
  destruct (_get_or_create_activity name _) as [d' aid].
  unfold _create_new_session_row. app_simpl.
  destruct aid; unfold insert_session; app_simpl; done.
Qed.

Lemma save_previous_running_epoch end_dt s a st k :
  running s = true -> current_activity_id s = Some a ->
  start_time s = Some st -> current_session_id s = Some k ->
  let s' := _save_previous_activity_if_running end_dt s in
  sessions (db s')
    = update_session end_dt (Z.max 0 (mktime end_dt - st)) k
        (sessions (db s))
  /\ current_session_id s' = None
  /\ running s' = false.
Proof.
  destruct s as [d run stt sts ca cn cs la av]. app_simpl.
  intros -> -> -> ->.
  unfold _save_previous_activity_if_running,
    _finalize_current_session_row, _update_current_session_row.
  app_simpl. done.
Qed.

Lemma do_autosave_same_day_epoch s now a st k :
  running s = true -> current_activity_id s = Some a ->
  start_time s = Some st -> current_session_id s = Some k ->
  date_of (_last_autosave_dt s) = date_of now ->
  sessions (db (_do_autosave now s))
  = update_session now (Z.max 0 (mktime now - st)) k (sessions (db s)).
Proof.
  intros Hrun Ha Hst Hk Hd.
  rewrite (do_autosave_same_day_eq s now a Hrun Ha Hd).
  destruct s as [d run stt sts ca cn cs la av]. app_simpl. subst.
  unfold _update_current_session_row, _add_to_daily_total.
  destruct (0 <? _); app_simpl; done.
Qed.

#[local] Transparent mktime.

End Sessions.



(** X8 - Stop finalises cleanly: an activity started at the clock
    reading [t0] and stopped later on the same date, [stop] reading the
    clock at [t1] for its autosave and at [e1] for the finalisation,
    leaves the tracker Idle without a live row; its session row reads
    start [t0], end [e1] and duration max(0, mktime(e1) - mktime(t0)), a
    difference of epoch times; and exactly the wall-clock difference
    [t1 - t0] is added to that date's total of the activity, and nothing
    to any other total.  The duration and the credit are taken on two
    scales and from two readings. *)
Theorem start_then_stop (name : string) (end_dt t0 t1 e1 : datetime)
    (s : App) :
  t0 <= t1 -> date_of t0 = date_of t1 ->
  let s1 := _start_activity name end_dt t0 s in
  let s2 := stop t1 e1 s1 in
  exists k a,
    current_session_id s1 = Some k
    /\ current_activity_id s1 = Some a
    /\ running s2 = false
    /\ current_session_id s2 = None
    /\ sessions (db s2) !! k
       = Some (mkSession a t0 e1 (Z.max 0 (mktime e1 - mktime t0)))
    /\ forall d a',
         daily_total (daily_totals (db s2)) d a'
         = daily_total (daily_totals (db s)) d a'
           + (if decide ((date_of t0, a) = (d, a')) then t1 - t0 else 0).
Proof.
  intros Hle Hd s1 s2.
  destruct (start_activity_rows name end_dt t0 s)
    as (a & Ha & _ & Hk & Hss).
  destruct (start_activity_checkpoint name end_dt t0 s)
    as (Hlast & _ & Hrun).
  pose proof (start_activity_epoch name end_dt t0 s) as Hst.
  pose proof (start_activity_daily_totals name end_dt t0 s) as Htot.
  fold s1 in Ha, Hk, Hss, Hlast, Hst, Hrun, Htot.
  set (k := max_session_id _ + 1) in *.
  assert (Hd1 : date_of (_last_autosave_dt s1) = date_of t1)
    by by rewrite Hlast.
  destruct (do_autosave_tracking s1 t1 a Hrun Ha)
    as (Hrun' & Ha' & _ & Htot' & _).
  destruct (do_autosave_same_day_sessions s1 t1 a Hrun Ha Hd1)
    as (Hk' & Hst' & _).
  pose proof (do_autosave_same_day_epoch s1 t1 a (mktime t0) k
                Hrun Ha Hst Hk Hd1) as Hss'.
  rewrite Hk in Hk'. rewrite Hst in Hst'.
  destruct (save_previous_running_epoch e1 (_do_autosave t1 s1) a
              (mktime t0) k Hrun' Ha' Hst' Hk') as (Hss2 & Hk2 & Hrun2).
  pose proof (save_previous_daily_totals e1 (_do_autosave t1 s1)) as Htot2.
  change (_save_previous_activity_if_running e1 (_do_autosave t1 s1))
    with s2 in Hss2, Hk2, Hrun2, Htot2.
  exists k, a. split; [done|]. split; [done|]. split; [done|].
  split; [done|]. split.
  - rewrite Hss2, Hss', Hss. unfold update_session.
    by rewrite !lookup_alter_eq, lookup_insert_eq.
  - intros d a'. rewrite Htot2, Htot', Hlast, <- Hd, Z.eqb_refl, Htot.
    destruct (0 <? t1 - t0) eqn:Hpos.
    + by rewrite daily_total_upsert.
    + case_decide; lia.
Qed.

Lemma start_then_stop_witness :
  let s := fresh_app (mk_datetime 2024 1 1 9 0 0) in
  let t0 := mk_datetime 2024 1 1 12 0 0 in
  let s1 := _start_activity "Break" t0 t0 s in
  let s2 := stop (t0 + 90) (t0 + 91) s1 in
  exists k a,
    current_session_id s1 = Some k
    /\ current_activity_id s1 = Some a
    /\ running s2 = false
    /\ current_session_id s2 = None
    /\ sessions (db s2) !! k
       = Some (mkSession a t0 (t0 + 91)
                 (Z.max 0 (mktime (t0 + 91) - mktime t0)))
    /\ forall d a',
         daily_total (daily_totals (db s2)) d a'
         = daily_total (daily_totals (db s)) d a'
           + (if decide ((date_of t0, a) = (d, a'))
              then t0 + 90 - t0 else 0).
Proof.
  apply (start_then_stop "Break" (mk_datetime 2024 1 1 12 0 0)
           (mk_datetime 2024 1 1 12 0 0)
           (mk_datetime 2024 1 1 12 0 0 + 90)
           (mk_datetime 2024 1 1 12 0 0 + 91)
           (fresh_app (mk_datetime 2024 1 1 9 0 0))).
  - apply Z.leb_le. vm_compute. reflexivity.
  - vm_compute. reflexivity.
Defined.

(** X15 - Stopping twice: after a [stop], a second [stop] finds the
    tracker Idle and does nothing but move the checkpoint to its own
    clock reading. *)
Theorem stop_twice (s : App) (t1 e1 t2 e2 : datetime) :
  consistent s = true ->
  stop t2 e2 (stop t1 e1 s) = set_last_autosave t2 (stop t1 e1 s).
Proof.
  intros Hc. destruct (stop_idle t1 e1 s Hc) as [_ Hidle].
  by apply stop_when_idle.
Qed.

Lemma stop_twice_witness :
  let s := working_since 1000 in
  stop 1200 1200 (stop 1100 1100 s)
  = set_last_autosave 1200 (stop 1100 1100 s).
Proof.
  apply (stop_twice (working_since 1000) 1100 1100 1200 1200).
  vm_compute. reflexivity.
Defined.


(** ** Repeated reconciliation *)

Section Repeated.

Implicit Types (s : App) (now : datetime) (a : Z).

Lemma update_row_idem now s :
  _update_current_session_row now (_update_current_session_row now s)
  = _update_current_session_row now s.
Proof.
  destruct s as [[acts ss dt] run st sts ca cn cs la av].
  unfold _update_current_session_row, set_db, set_sessions.
  cbn [db running start_time start_timestamp current_activity_id
       current_activity_name current_session_id _last_autosave_dt
       activity_var activities sessions daily_totals].
  destruct run; [|done]. destruct cs as [k|]; [|done].
  destruct st as [t|]; [|done].
  cbn [db running start_time start_timestamp current_activity_id
       current_activity_name current_session_id _last_autosave_dt
       activity_var activities sessions daily_totals].
  do 2 f_equal. unfold update_session. apply map_eq. intros i.
  rewrite !lookup_alter. case_decide; [|done].
  rewrite decide_True by done. by destruct (ss !! k).
Qed.

Lemma date_of_next_midnight (ref : datetime) :
  date_of (next_midnight ref) = date_of ref + 1.
Proof. unfold next_midnight. apply date_of_combine_min. Qed.

Lemma rollover_size s now a :
  running s = true -> current_activity_id s = Some a ->
  date_of (_last_autosave_dt s) <> date_of now ->
  size (sessions (db (_do_autosave now s))) = S (size (sessions (db s))).
Proof.
  intros Hrun Ha Hne.
  destruct (current_session_id s) as [k|] eqn:Hk;
    destruct (start_time s) as [st|] eqn:Hst.
  - destruct (do_autosave_rollover_sessions s now a k st
                Hrun Ha Hk Hst Hne) as (-> & _ & _).
    rewrite size_update_session.
    rewrite map_size_insert_None by apply max_session_id_fresh.
    by rewrite size_update_session.
  - apply (rollover_adds_one_row s now a Hrun Ha Hne). by right.
  - apply (rollover_adds_one_row s now a Hrun Ha Hne). by left.
  - apply (rollover_adds_one_row s now a Hrun Ha Hne). by left.
Qed.

(** One clock refresh that reads exactly the midnight ending the
    checkpoint's day. *)
Lemma update_clock_at_midnight s a :
  running s = true -> current_activity_id s = Some a ->
  let ref := _last_autosave_dt s in
  let M := next_midnight ref in
  let s' := _update_clock M M s in
  running s' = true
  /\ current_activity_id s' = Some a
  /\ _last_autosave_dt s' = ref
  /\ daily_totals (db s')
     = upsert_daily_total (date_of ref) a (M - ref) (daily_totals (db s))
  /\ size (sessions (db s')) = S (size (sessions (db s))).
Proof.
  intros Hrun Ha ref M s'.
  assert (Hne : date_of ref <> date_of M).
  { unfold M. rewrite date_of_next_midnight. lia. }
  assert (Hs' : s' = _do_autosave M s).
  { unfold s', _update_clock. rewrite Hrun.
    assert (Hb : (date_of M =? date_of (_last_autosave_dt s)) = false)
      by (apply Z.eqb_neq; fold ref; congruence).
    by rewrite Hb. }
  rewrite Hs'.
  destruct (do_autosave_tracking s M a Hrun Ha)
    as (Hrun' & Ha' & _ & Htot & Hlast).
  fold ref M in Htot, Hlast.
  apply Z.eqb_neq in Hne. rewrite Hne in Htot, Hlast.
  assert (Hz : (0 <? M - M) = false) by lia.
  cbv zeta in Htot. rewrite Hz in Htot, Hlast.
  split; [done|]. split; [done|]. split; [done|]. split; [done|].
  apply (rollover_size s M a Hrun Ha). apply Z.eqb_neq in Hne. done.
Qed.

End Repeated.

(** X16 - A repeated tick changes nothing: a second [_do_autosave] with
    the same clock reading leaves the state exactly as the first one
    left it, provided that, if a session is tracked, the reading is on
    the checkpoint's date or after the midnight that ends it. *)
Theorem tick_twice_is_tick_once (s : App) (now : datetime) :
  (tracking s = true ->
   date_of (_last_autosave_dt s) = date_of now
   \/ next_midnight (_last_autosave_dt s) < now) ->
  _do_autosave now (_do_autosave now s) = _do_autosave now s.
Proof.
  intros Hcond. destruct (tracking s) eqn:Htr.
  - specialize (Hcond eq_refl).
    destruct (tracking_inv s Htr) as (Hrun & a & Ha).
    destruct (do_autosave_tracking s now a Hrun Ha)
      as (Hrun' & Ha' & _ & _ & Hlast).
    set (ref := _last_autosave_dt s) in *.
    assert (H1 : date_of (_last_autosave_dt (_do_autosave now s))
                 = date_of now
                 /\ (0 <? total_seconds now
                            (_last_autosave_dt (_do_autosave now s)))
                    = false).
    { rewrite Hlast. unfold total_seconds.
      destruct (date_of ref =? date_of now) eqn:Hd.
      - apply Z.eqb_eq in Hd.
        destruct (0 <? now - ref) eqn:Hpos; split; try done; lia.
      - apply Z.eqb_neq in Hd. destruct Hcond as [?|Hlt]; [done|].
        assert (Hpos : (0 <? now - next_midnight ref) = true) by lia.
        rewrite Hpos. split; [done|lia]. }
    destruct H1 as [Hd1 Hz].
    rewrite (do_autosave_same_day_eq _ now a Hrun' Ha' Hd1), Hz.
    destruct (decide (date_of ref = date_of now)) as [Hd|Hd].
    + rewrite (do_autosave_same_day_eq s now a Hrun Ha Hd).
      apply update_row_idem.
    + rewrite (do_autosave_date_change_eq s now a Hrun Ha Hd).
      apply update_row_idem.
  - rewrite (do_autosave_idle s now Htr).
    by rewrite do_autosave_idle.
Qed.

Lemma tick_twice_is_tick_once_witness :
  let s := working_since (mk_datetime 2024 1 1 23 58 0) in
  let now := mk_datetime 2024 1 2 0 2 0 in
  _do_autosave now (_do_autosave now s) = _do_autosave now s.
Proof.
  apply (tick_twice_is_tick_once
           (working_since (mk_datetime 2024 1 1 23 58 0))
           (mk_datetime 2024 1 2 0 2 0)).
  intros _. right. apply Z.ltb_lt. vm_compute. reflexivity.
Defined.

(** X12 - Clock refreshes at the stroke of midnight: while a session is
    tracked, each call of [_update_clock] whose clock reads exactly the
    midnight [M] that ends the checkpoint's day runs the day split and
    leaves the checkpoint where it was, so [n] such calls credit the
    checkpoint's date [n] times the seconds up to [M] and insert [n]
    session rows. *)
Theorem update_clock_at_midnight_repeats (s : App) (a : Z) (n : nat) :
  running s = true ->
  current_activity_id s = Some a ->
  let ref := _last_autosave_dt s in
  let M := next_midnight ref in
  let s' := Nat.iter n (_update_clock M M) s in
  daily_total (daily_totals (db s')) (date_of ref) a
  = daily_total (daily_totals (db s)) (date_of ref) a
    + Z.of_nat n * (M - ref)
  /\ size (sessions (db s')) = (n + size (sessions (db s)))%nat
  /\ _last_autosave_dt s' = ref.
Proof.
  intros Hrun Ha ref M.
  assert (Hinv : forall m,
    let s' := Nat.iter m (_update_clock M M) s in
    running s' = true /\ current_activity_id s' = Some a
    /\ _last_autosave_dt s' = ref
    /\ daily_total (daily_totals (db s')) (date_of ref) a
       = daily_total (daily_totals (db s)) (date_of ref) a
         + Z.of_nat m * (M - ref)
    /\ size (sessions (db s')) = (m + size (sessions (db s)))%nat).
  { induction m as [|m IH]; cbv zeta.
    - change (Nat.iter 0 (_update_clock M M) s) with s.
      split; [done|]. split; [done|]. split; [done|].
      split; [|done]. change (Z.of_nat 0) with 0. lia.
    - change (Nat.iter (S m) (_update_clock M M) s)
        with (_update_clock M M (Nat.iter m (_update_clock M M) s)).
      destruct IH as (Hr & Hact & Hl & Ht & Hsz).
      destruct (update_clock_at_midnight _ a Hr Hact)
        as (Hr' & Hact' & Hl' & Ht' & Hsz').
      cbv zeta in Hl', Ht', Hr', Hact', Hsz'.
      rewrite Hl in Hl', Ht', Hr', Hact', Hsz'. fold M in Hl', Ht', Hr', Hact', Hsz'.
      split; [done|]. split; [done|]. split; [done|]. split.
      + rewrite Ht', daily_total_upsert, Ht.
        rewrite decide_True by done. rewrite Nat2Z.inj_succ. nia.
      + rewrite Hsz', Hsz. done. }
  destruct (Hinv n) as (_ & _ & Hl & Ht & Hsz). done.
Qed.

Lemma update_clock_at_midnight_repeats_witness :
  let s := working_since (mk_datetime 2024 1 1 23 59 30) in
  let ref := _last_autosave_dt s in
  let M := next_midnight ref in
  let s' := Nat.iter 3 (_update_clock M M) s in
  daily_total (daily_totals (db s')) (date_of ref) 1
  = daily_total (daily_totals (db s)) (date_of ref) 1
    + Z.of_nat 3 * (M - ref)
  /\ size (sessions (db s')) = (3 + size (sessions (db s)))%nat
  /\ _last_autosave_dt s' = ref.
Proof.
  apply (update_clock_at_midnight_repeats
           (working_since (mk_datetime 2024 1 1 23 59 30)) 1 3);
    vm_compute; reflexivity.
Defined.


(** ** Constraints of the schema along a run *)

Section Schema.

Implicit Types (s : App) (acts : list (Z * string)) (name : string).

Lemma insert_or_ignore_ids_mono name acts (a : Z) :
  a ∈ (fst <$> acts) -> a ∈ (fst <$> insert_or_ignore_activity name acts).
Proof.
  intros H. unfold insert_or_ignore_activity.
  destruct (existsb _ acts); [done|].
  rewrite fmap_app, elem_of_app. by left.
Qed.

Lemma select_activity_id_in name acts (a : Z) :
  select_activity_id name acts = Some a -> a ∈ (fst <$> acts).
Proof.
  unfold select_activity_id.
  destruct (find _ acts) as [r|] eqn:Hf; [|done]. intros [= <-].
  apply find_some in Hf as [Hin _].
  apply list_elem_of_fmap. exists r. split; [done|].
  by apply list_elem_of_In.
Qed.

Lemma seed_ids_mono (d : DB) (a : Z) :
  a ∈ (fst <$> activities d) ->
  a ∈ (fst <$> activities (_seed_default_activities d)).
Proof.
  unfold _seed_default_activities. cbn [activities set_activities].
  intros H. apply insert_or_ignore_ids_mono.
  revert H. generalize (activities d).
  induction DEFAULT_ACTIVITIES as [|n l IH]; intros acts H; [done|].
  cbn [foldl]. by apply IH, insert_or_ignore_ids_mono.
Qed.

Lemma seed_registry_ok (d : DB) :
  registry_ok (activities d) ->
  registry_ok (activities (_seed_default_activities d)).
Proof.
  unfold _seed_default_activities. cbn [activities set_activities].
  intros H. apply insert_or_ignore_registry_ok.
  revert H. generalize (activities d).
  induction DEFAULT_ACTIVITIES as [|n l IH]; intros acts H; [done|].
  cbn [foldl]. by apply IH, insert_or_ignore_registry_ok.
Qed.

Lemma update_row_activities t s :
  activities (db (_update_current_session_row t s)) = activities (db s).
Proof. by destruct (update_row_frame t s) as [f ->]. Qed.

Lemma create_row_activities t s :
  activities (db (_create_new_session_row t s)) = activities (db s).
Proof.
  unfold _create_new_session_row, insert_session.
  by destruct (current_activity_id s).
Qed.

Lemma fk_ok_update t s : fk_ok s -> fk_ok (_update_current_session_row t s).
Proof.
  intros [[Hss Hdt] Ha]. unfold _update_current_session_row.
  destruct (running s); [|done].
  destruct (current_session_id s) as [k|]; cbv iota; [|done].
  destruct (start_time s) as [st|]; cbv iota; [|done].
  split; [split|]; app_simpl; [|done|done].
  unfold update_session. intros i r'. rewrite lookup_alter.
  case_decide; [|apply Hss].
  destruct (sessions (db s) !! k) as [r|] eqn:Hr; [|done].
  intros [= <-]. cbn [activity_id]. by apply (Hss k r).
Qed.

Lemma fk_ok_open t s a :
  fk_ok s -> current_activity_id s = Some a ->
  fk_ok (_create_new_session_row t
           (set_run true (Some (mktime t)) (Some t) s)).
Proof.
  intros [[Hss Hdt] Ha] Hcur.
  unfold _create_new_session_row, insert_session. app_simpl.
  rewrite Hcur. app_simpl. split; [split|]; [|done|done].
  apply map_Forall_insert_2; [|done]. cbn [activity_id]. by apply Ha.
Qed.

Lemma fk_ok_credit d a v s :
  current_activity_id s = Some a -> fk_ok s ->
  fk_ok (_add_to_daily_total d a v s).
Proof.
  intros Hcur [[Hss Hdt] Ha]. unfold _add_to_daily_total. app_simpl.
  split; [split|]; [done| |done].
  unfold upsert_daily_total. apply map_Forall_insert_2; [|done].
  cbn [snd]. by apply Ha.
Qed.

Lemma fk_ok_registry name s :
  fk_ok s ->
  fk_ok (set_db (set_activities (insert_or_ignore_activity name)) s).
Proof.
  intros [[Hss Hdt] Ha]. unfold fk_ok, db_fk_ok. app_simpl.
  split; [split|].
  - intros k r Hr. by apply insert_or_ignore_ids_mono, (Hss k r).
  - intros key v Hv. by apply insert_or_ignore_ids_mono, (Hdt key v).
  - intros a Hcur. by apply insert_or_ignore_ids_mono, Ha.
Qed.

Lemma fk_ok_activity name s :
  fk_ok s ->
  fk_ok (set_activity (select_activity_id name (activities (db s)))
           name s).
Proof.
  intros [Hdb _]. split; [done|]. app_simpl.
  intros a. apply select_activity_id_in.
Qed.

End Schema.

(** X19 - Foreign keys always hold: if every [sessions] and
    [daily_totals] row of the database file refers to an existing
    activity, then after the launch and any sequence of events every row
    still does, and so does the current activity id; no INSERT the code
    issues can be rejected by a FOREIGN KEY constraint. *)
Theorem foreign_keys_hold (d : DB) (t0 : datetime) (ops : list Op) :
  db_fk_ok d ->
  fk_ok (run (StopwatchApp_init d t0 t0 t0) ops).
Proof.
  intros [Hss Hdt].
  apply (frame_run fk_ok).
  - intros t s. apply fk_ok_update.
  - by intros s H.
  - by intros s _ H.
  - intros t s a. apply fk_ok_open.
  - intros d' a v s _. apply fk_ok_credit.
  - by intros t s H.
  - by intros v s H.
  - apply fk_ok_registry.
  - apply fk_ok_activity.
  - unfold StopwatchApp_init. apply (frame_start_activity fk_ok).
    + intros t s. apply fk_ok_update.
    + by intros s H.
    + by intros s _ H.
    + intros t s a. apply fk_ok_open.
    + by intros t s H.
    + apply fk_ok_registry.
    + apply fk_ok_activity.
    + split; [split|]; app_simpl; [| |done].
      * intros k r Hr. by apply seed_ids_mono, (Hss k r).
      * intros key v Hv. by apply seed_ids_mono, (Hdt key v).
Qed.

Lemma foreign_keys_hold_witness :
  fk_ok (run (StopwatchApp_init (db (working_since 500)) 1000 1000 1000)
           [OpTick 1060; OpSwitch "Custom" (Some "Reading") 1090;
            OpStop 90000]).
Proof.
  apply (foreign_keys_hold (db (working_since 500)) 1000).
  split; (eapply bool_decide_unpack; vm_compute; exact I).
Defined.

(** X2 - The table constraints are kept: if the ids of [activities] are
    pairwise distinct and its names pairwise distinct under NOCASE in the
    database file, they still are after the launch and any sequence of
    events; no case variant of a name is ever stored twice. *)
Theorem registry_stays_unique (d : DB) (t0 : datetime) (ops : list Op) :
  registry_ok (activities d) ->
  registry_ok
    (activities (db (run (StopwatchApp_init d t0 t0 t0) ops))).
Proof.
  intros Hd.
  apply (frame_run (fun s => registry_ok (activities (db s)))).
  - intros t s H. by rewrite update_row_activities.
  - by intros s H.
  - by intros s _ H.
  - intros t s a H _. by rewrite create_row_activities.
  - by intros d' a v s _ _ H.
  - by intros t s H.
  - by intros v s H.
  - intros name s H. by apply insert_or_ignore_registry_ok.
  - by intros name s H.
  - unfold StopwatchApp_init.
    apply (frame_start_activity
             (fun s => registry_ok (activities (db s)))).
    + intros t s H. by rewrite update_row_activities.
    + by intros s H.
    + by intros s _ H.
    + intros t s a H _. by rewrite create_row_activities.
    + by intros t s H.
    + intros name s H. by apply insert_or_ignore_registry_ok.
    + by intros name s H.
    + by apply seed_registry_ok.
Qed.

Lemma registry_stays_unique_witness :
  registry_ok
    (activities
       (db (run (StopwatchApp_init (db (working_since 500)) 1000 1000 1000)
              [OpSwitch "Custom" (Some "Reading") 1090;
               OpSwitch "Custom" (Some "READING") 1100]))).
Proof.
  apply (registry_stays_unique (db (working_since 500)) 1000).
  split; (eapply bool_decide_unpack; vm_compute; exact I).
Defined.


(** ** The picker's "Custom" entry *)

Section CustomDialog.

Lemma insert_or_ignore_idem (name : string) (acts : list (Z * string)) :
  insert_or_ignore_activity name (insert_or_ignore_activity name acts)
  = insert_or_ignore_activity name acts.
Proof.
  apply insert_or_ignore_present, existsb_insert_or_ignore.
Qed.

Lemma save_previous_registry_commute end_dt (s : App)
    (f : list (Z * string) -> list (Z * string)) :
  _save_previous_activity_if_running end_dt
    (set_db (set_activities f) s)
  = set_db (set_activities f)
      (_save_previous_activity_if_running end_dt s).
Proof.
  destruct s as [[acts ss dt] run st sts ca cn cs la av].
  unfold _save_previous_activity_if_running,
    _finalize_current_session_row, _update_current_session_row.
  app_simpl. destruct run, ca, st, cs; app_simpl; done.
Qed.

End CustomDialog.

(** X20 - The "Custom" dialog: with "Custom" selected in the picker, a
    cancelled or empty answer leaves the tracker and the database
    untouched and only puts the selection back on the current activity
    (or the default one); a typed name is started exactly as if it had
    been selected directly. *)
Theorem switch_custom_dialog (s : App) (custom : option string)
    (end_dt now : datetime) :
  activity_var s = "Custom" ->
  let prev :=
    match current_activity_name s with
    | Some n => if truthy n then n else _first_non_custom_activity (db s)
    | None => _first_non_custom_activity (db s)
    end in
  match custom with
  | Some c =>
      if truthy c
      then _switch_activity custom end_dt now s
           = _start_activity c end_dt now (set_activity_var c s)
      else _switch_activity custom end_dt now s = set_activity_var prev s
  | None => _switch_activity custom end_dt now s = set_activity_var prev s
  end.
Proof.
  intros Hsel prev. unfold _switch_activity. rewrite Hsel.
  cbn [String.eqb Ascii.eqb Bool.eqb]. fold prev.
  destruct custom as [c|]; [|done].
  destruct (truthy c); [|done].
  unfold _start_activity, _get_or_create_activity. cbv zeta.
  change (set_db (fun _ => set_activities (insert_or_ignore_activity c)
                             (db (set_activity_var prev s)))
            (set_activity_var prev s))
    with (set_db (set_activities (insert_or_ignore_activity c))
            (set_activity_var prev s)).
  change (set_activity_var c
            (set_db (set_activities (insert_or_ignore_activity c))
               (set_activity_var prev s)))
    with (set_db (set_activities (insert_or_ignore_activity c))
            (set_activity_var c s)).
  rewrite save_previous_registry_commute.
  generalize (_save_previous_activity_if_running end_dt
                (set_activity_var c s)).
  intros [[acts ss dt] run st sts ca cn cs la av].
  unfold set_db, set_activities.
  cbn [db activities sessions daily_totals running start_time
       start_timestamp current_activity_id current_activity_name
       current_session_id _last_autosave_dt activity_var].
  by rewrite insert_or_ignore_idem.
Qed.

Lemma switch_custom_dialog_witness :
  let s := set_activity_var "Custom" (working_since 1000) in
  _switch_activity (Some "Reading") 1100 1100 s
  = _start_activity "Reading" 1100 1100 (set_activity_var "Reading" s)
  /\ _switch_activity None 1100 1100 s = set_activity_var "Work" s.
Proof.
  split.
  - exact (switch_custom_dialog
             (set_activity_var "Custom" (working_since 1000))
             (Some "Reading") 1100 1100 eq_refl).
  - pose proof (switch_custom_dialog
                  (set_activity_var "Custom" (working_since 1000))
                  None 1100 1100 eq_refl) as H.
    vm_compute in H |- *. exact H.
Defined.

(** ** Launch *)

Section Launch.

Implicit Types (s : App) (name : string) (now : datetime).

Lemma start_activity_name name end_dt now s :
  current_activity_name (_start_activity name end_dt now s) = Some name.
Proof.
  unfold _start_activity, _get_or_create_activity. cbv zeta.
  unfold _create_new_session_row, insert_session. app_simpl.
  by destruct (select_activity_id name _).
Qed.

(** An autosave never renames the current activity. *)
Lemma do_autosave_activity_name now s :
  current_activity_name (_do_autosave now s) = current_activity_name s.
Proof.
  apply (frame_do_autosave
           (fun s' => current_activity_name s' = current_activity_name s)).
  - intros t s' H. by destruct (update_row_frame t s') as [f ->].
  - by intros s' H.
  - intros t s' a H _. unfold _create_new_session_row, insert_session.
    by destruct (current_activity_id _).
  - by intros d a v s' _ _ H.
  - by intros t s' H.
  - done.
Qed.

End Launch.

(** X21 - Launch: [__init__], its first clock refresh included, always
    leaves the tracker Running the default activity, which is never the
    "Custom" entry.  When that refresh reads the date of the start, the
    checkpoint and the start time are at the start's clock reading,
    nothing is credited and exactly one session row is inserted.  When
    the refresh and its autosave read another date, the launch has
    already split the day: two rows are inserted and the start time is
    the midnight after the start. *)
Theorem launch_starts_default (d : DB)
    (t0 end_dt now clock autosave_now : datetime) :
  let s := StopwatchApp_launch d t0 end_dt now clock autosave_now in
  running s = true
  /\ current_activity_name s
     = Some (_first_non_custom_activity (_seed_default_activities d))
  /\ current_activity_name s <> Some "Custom"
  /\ (date_of clock = date_of now ->
      _last_autosave_dt s = now
      /\ start_time s = Some (mktime now)
      /\ daily_totals (db s) = daily_totals d
      /\ size (sessions (db s)) = S (size (sessions d)))
  /\ (date_of clock <> date_of now ->
      date_of autosave_now <> date_of now ->
      start_time s = Some (mktime (next_midnight now))
      /\ size (sessions (db s)) = S (S (size (sessions d)))).
Proof.
  intros s. unfold s, StopwatchApp_launch, StopwatchApp_init.
  set (d1 := _seed_default_activities d).
  set (name := _first_non_custom_activity d1).
  set (s0 := mkApp d1 false None None None None None t0 name).
  set (s1 := _start_activity name end_dt now s0).
  destruct (start_activity_checkpoint name end_dt now s0)
    as (Hlast & Hst & Hrun).
  pose proof (start_activity_daily_totals name end_dt now s0) as Htot.
  destruct (start_activity_rows name end_dt now s0)
    as (a & Ha & _ & _ & Hss).
  pose proof (start_activity_name name end_dt now s0) as Hname.
  fold s1 in Hlast, Hst, Hrun, Htot, Ha, Hss, Hname.
  assert (Hsize : size (sessions (db s1)) = S (size (sessions d))).
  { rewrite Hss. apply map_size_insert_None, max_session_id_fresh. }
  assert (Hcustom : Some name <> Some "Custom").
  { intros [= Heq]. by apply (first_non_custom_ne_custom d1). }
  unfold _update_clock. rewrite Hrun, Hlast. cbn [andb].
  destruct (date_of clock =? date_of now) eqn:Hclock; cbn [negb].
  - apply Z.eqb_eq in Hclock.
    split; [done|]. split; [done|]. split; [by rewrite Hname|].
    split; [done|]. by intros Hne.
  - apply Z.eqb_neq in Hclock.
    destruct (do_autosave_tracking s1 autosave_now a Hrun Ha)
      as (Hrun' & _).
    rewrite do_autosave_activity_name.
    split; [done|]. split; [done|]. split; [by rewrite Hname|].
    split; [done|]. intros _ Hne.
    assert (Hd : date_of (_last_autosave_dt s1) <> date_of autosave_now)
      by (rewrite Hlast; congruence).
    split.
    + rewrite (rollover_start_time s1 autosave_now a Hrun Ha Hd).
      by rewrite Hlast.
    + rewrite (rollover_size s1 autosave_now a Hrun Ha Hd).
      by rewrite Hsize.
Qed.

Lemma launch_starts_default_witness :
  let t := mk_datetime 2024 1 1 12 0 0 in
  let s := StopwatchApp_launch empty_db t t t (t + 1) (t + 1) in
  date_of (t + 1) = date_of t
  /\ running s = true
  /\ current_activity_name s
     = Some (_first_non_custom_activity (_seed_default_activities empty_db))
  /\ _last_autosave_dt s = t
  /\ start_time s = Some (mktime t)
  /\ daily_totals (db s) = daily_totals empty_db
  /\ size (sessions (db s)) = S (size (sessions empty_db)).
Proof.
  assert (Hd : date_of (mk_datetime 2024 1 1 12 0 0 + 1)
               = date_of (mk_datetime 2024 1 1 12 0 0))
    by (vm_compute; reflexivity).
  destruct (launch_starts_default empty_db
              (mk_datetime 2024 1 1 12 0 0) (mk_datetime 2024 1 1 12 0 0)
              (mk_datetime 2024 1 1 12 0 0)
              (mk_datetime 2024 1 1 12 0 0 + 1)
              (mk_datetime 2024 1 1 12 0 0 + 1))
    as (Hrun & Hname & _ & Hsame & _).
  destruct (Hsame Hd) as (Hlast & Hst & Htot & Hsize).
  split; [exact Hd|]. split; [exact Hrun|]. split; [exact Hname|].
  split; [exact Hlast|]. split; [exact Hst|]. split; [exact Htot|].
  exact Hsize.
Defined.

(** ** The clock text *)

(** X17 - The clock text shows the elapsed time field by field: while
    Running, when the clock is [h] hours, [m] minutes, [sec] seconds and
    [cs] hundredths (and less than another hundredth) past the start
    time, [_current_time_text] is the four fields, each zero-padded to
    two digits, as "HH:MM:SS.cc". *)
Theorem current_time_text_fields (s : App) (st h m sec cs rest : Z) :
  running s = true -> start_time s = Some st ->
  0 <= h -> 0 <= m < 60 -> 0 <= sec < 60 -> 0 <= cs < 100 ->
  0 <= rest < 10000 ->
  _current_time_text
    (st * MICRO + ((h * 60 + m) * 60 + sec) * MICRO + cs * 10000 + rest) s
  = fmt02 h +:+ ":" +:+ fmt02 m +:+ ":" +:+ fmt02 sec +:+ "."
    +:+ fmt02 cs.
Proof.
  intros Hrun Hst Hh Hm Hsec Hcs Hrest. unfold _current_time_text.
  rewrite (current_elapsed_running _ s st Hrun Hst).
  set (e := st * MICRO + ((h * 60 + m) * 60 + sec) * MICRO
            + cs * 10000 + rest - st * MICRO).
  assert (He : e = ((h * 60 + m) * 60 + sec) * 1000000 + cs * 10000 + rest)
    by (unfold e, MICRO; lia).
  assert (Hmins : e / (60 * MICRO) = h * 60 + m).
  { rewrite He. unfold MICRO. Z.div_mod_to_equations. lia. }
  assert (Hsecs : e mod (60 * MICRO) = sec * 1000000 + cs * 10000 + rest).
  { rewrite He. unfold MICRO. Z.div_mod_to_equations. lia. }
  cbv zeta. rewrite Hmins, Hsecs.
  assert (H1 : (h * 60 + m) / 60 = h) by (Z.div_mod_to_equations; lia).
  assert (H2 : (h * 60 + m) mod 60 = m) by (Z.div_mod_to_equations; lia).
  assert (H3 : Z.quot (sec * 1000000 + cs * 10000 + rest) MICRO = sec).
  { unfold MICRO. Z.quot_rem_to_equations. lia. }
  assert (H4 : Z.quot (Z.rem e MICRO * 100) MICRO = cs).
  { rewrite He. unfold MICRO. Z.quot_rem_to_equations. lia. }
  by rewrite H1, H2, H3, H4.
Qed.

Lemma current_time_text_fields_witness :
  _current_time_text
    (100 * MICRO + ((1 * 60 + 2) * 60 + 5) * MICRO + 12 * 10000 + 3456)
    (mkApp empty_db true (Some 100) (Some 100) (Some 1) (Some "Work")
       (Some 1) 100 "Work")
  = fmt02 1 +:+ ":" +:+ fmt02 2 +:+ ":" +:+ fmt02 5 +:+ "." +:+ fmt02 12.
Proof.
  apply (current_time_text_fields
           (mkApp empty_db true (Some 100) (Some 100) (Some 1)
              (Some "Work") (Some 1) 100 "Work") 100 1 2 5 12 3456);
    (reflexivity || lia).
Defined.
